(** * ArduinoBluetoothCar: the simulated car environment and its deployment map

    A shallow embedding of [arduino_car_ai/environment.py] (class
    [CarSimulatorEnv]) and of the action table of
    [arduino_car_ai/arduino_controller.py] (class [ArduinoAIController]),
    with the episode loop of [arduino_car_ai/train.py], the state and the
    serial reader of the controller, the classes of
    [basic version improver/motor_controller.py] and the command path of
    [Controller version does not work/ArduinoPS5Controller.py].

    Numbers.  Python's [int] is [Z].  In [CarSimulatorEnv] Python's [float]
    is read as a real number: [math.cos], [math.sin] and [math.sqrt] are
    [cos], [sin] and [sqrt] of the Standard Library's reals, and the
    rounding of binary64 arithmetic is left out.  A statement there that
    equates a computed distance with a product is a statement of exact
    arithmetic and says so; the other statements either repeat the
    operations of the code or leave room for the rounding.  [Binary64]
    repeats the motion of a step on binary64 floats and is evaluated where
    the rounding decides.

    Randomness.  [random.uniform] and [random.randint] are read as functions
    of the values drawn, which are passed in by the caller.

    Rendering.  [render], [init_pygame] and the fields [render_mode],
    [screen], [clock] and [font] only draw the state after a step; they write
    no field of the simulation and are left out. *)

From Stdlib Require Import ZArith List Bool Lia Reals Lra Zfloor String Ascii.
From Stdlib Require Import DecimalString.
From Stdlib Require PrimFloat FloatOps SpecFloat Uint63.
Import ListNotations.

(** ** Comparisons of reals as booleans *)

Module RBool.

Definition ltb (x y : R) : bool := if Rlt_dec x y then true else false.
Definition gtb (x y : R) : bool := ltb y x.

End RBool.

(** ** The part of pygame the environment uses

    [pygame.Rect] stores four C integers.  A float argument is converted by
    a C cast, which drops the fractional part (rounds toward zero).
    [Rect.colliderect] is pygame's [_pg_do_rects_intersect]: a rectangle of
    zero width or height collides with nothing, and two rectangles that only
    share an edge do not collide. *)

Module pygame.

Record Rect : Type := mkRect { left : Z; top : Z; w : Z; h : Z }.

(** C's conversion of a double to an int. *)
Definition int_of_float (r : R) : Z :=
  if Rle_dec 0 r then Zfloor r else Zceil r.

(** [pygame.Rect(x, y, w, h)] with float coordinates. *)
Definition Rect_of_floats (x y : R) (w h : Z) : Rect :=
  mkRect (int_of_float x) (int_of_float y) w h.

Definition colliderect (A B : Rect) : bool :=
  if ((w A =? 0) || (h A =? 0) || (w B =? 0) || (h B =? 0))%Z then false
  else
    ((Z.min (left A) (left A + w A) <? Z.max (left B) (left B + w B))
     && (Z.min (top A) (top A + h A) <? Z.max (top B) (top B + h B))
     && (Z.max (left A) (left A + w A) >? Z.min (left B) (left B + w B))
     && (Z.max (top A) (top A + h A) >? Z.min (top B) (top B + h B)))%Z.

End pygame.

Import pygame.

(** ** Python helpers *)

(** [range(a, b)] over the integers. *)
Definition range (a b : Z) : list Z :=
  map (fun i => (a + Z.of_nat i)%Z) (seq 0 (Z.to_nat (b - a))).

(** [random.uniform(a, b)] is [a + (b - a) * random()]; [u] is the value
    drawn by [random()], a float of [0, 1). *)
Definition uniform (a b u : R) : R := (a + (b - a) * u)%R.

(** [min] of a list of floats; the lists it is applied to are not empty. *)
Definition min_list (l : list R) : R :=
  match l with
  | [] => 0%R
  | x :: rest => fold_left Rmin rest x
  end.

(** What a call does: it returns a value or raises an exception. *)
Inductive outcome (A : Type) : Type :=
| Returned (a : A)
| Raised (exn : string).
Arguments Returned {A} a.
Arguments Raised {A} exn.

(** ** CarSimulatorEnv *)

Module CarSimulatorEnv.

(** The constants [__init__] stores in the object and no method changes. *)
Definition width : Z := 800.
Definition height : Z := 600.
Definition car_size : Z := 30.
Definition sensor_range : Z := 200.
Definition max_speed : Z := 5.
Definition min_speed : Z := 1.

(** The fields the methods read and write. *)
Record Env : Type := mkEnv {
  obstacles : list Rect;
  car_x : R;
  car_y : R;
  car_angle : R;
  car_speed : Z;
  car_velocity : R;
  steps : Z;
  total_distance : R;
  last_position : R * R;
  stationary_steps : Z
}.

Definition set_obstacles (self : Env) (v : list Rect) : Env :=
  mkEnv v (car_x self) (car_y self) (car_angle self) (car_speed self)
        (car_velocity self) (steps self) (total_distance self)
        (last_position self) (stationary_steps self).

Definition set_position (self : Env) (x y : R) : Env :=
  mkEnv (obstacles self) x y (car_angle self) (car_speed self)
        (car_velocity self) (steps self) (total_distance self)
        (last_position self) (stationary_steps self).

Definition set_car_angle (self : Env) (v : R) : Env :=
  mkEnv (obstacles self) (car_x self) (car_y self) v (car_speed self)
        (car_velocity self) (steps self) (total_distance self)
        (last_position self) (stationary_steps self).

Definition set_car_speed (self : Env) (v : Z) : Env :=
  mkEnv (obstacles self) (car_x self) (car_y self) (car_angle self) v
        (car_velocity self) (steps self) (total_distance self)
        (last_position self) (stationary_steps self).

Definition set_car_velocity (self : Env) (v : R) : Env :=
  mkEnv (obstacles self) (car_x self) (car_y self) (car_angle self)
        (car_speed self) v (steps self) (total_distance self)
        (last_position self) (stationary_steps self).

Definition set_steps (self : Env) (v : Z) : Env :=
  mkEnv (obstacles self) (car_x self) (car_y self) (car_angle self)
        (car_speed self) (car_velocity self) v (total_distance self)
        (last_position self) (stationary_steps self).

Definition set_total_distance (self : Env) (v : R) : Env :=
  mkEnv (obstacles self) (car_x self) (car_y self) (car_angle self)
        (car_speed self) (car_velocity self) (steps self) v
        (last_position self) (stationary_steps self).

Definition set_stationary_steps (self : Env) (v : Z) : Env :=
  mkEnv (obstacles self) (car_x self) (car_y self) (car_angle self)
        (car_speed self) (car_velocity self) (steps self)
        (total_distance self) (last_position self) v.

(** *** generate_obstacles *)

(** The four border walls. *)
Definition border_walls : list Rect :=
  [ mkRect 0 0 width 10;
    mkRect 0 0 10 height;
    mkRect 0 (height - 10) width 10;
    mkRect (width - 10) 0 10 height ].

(** One pass of the loop [for _ in range(8)]: four [random.randint] draws
    [(x, y, w, h)] make one rectangle. *)
Definition random_obstacle (draw : Z * Z * Z * Z) : Rect :=
  let '(x, y, w, h) := draw in mkRect x y w h.

(** What [random.randint] can return for the four draws of one pass. *)
Definition draw_in_range (draw : Z * Z * Z * Z) : Prop :=
  let '(x, y, w, h) := draw in
  (100 <= x <= width - 100 /\ 100 <= y <= height - 100
   /\ 40 <= w <= 100 /\ 40 <= h <= 100)%Z.

(** [draws] holds the draws of the eight passes, in order. *)
Definition generate_obstacles (draws : list (Z * Z * Z * Z)) : list Rect :=
  border_walls ++ map random_obstacle (firstn 8 draws).

(** *** cast_ray *)

(** The body of the loop of [cast_ray] for one [dist]: [true] where the
    loop returns [dist]. *)
Definition ray_hit (self : Env) (angle : R) (dist : Z) : bool :=
  let x := (car_x self + IZR dist * cos angle)%R in
  let y := (car_y self + IZR dist * sin angle)%R in
  if RBool.ltb x 0 || RBool.gtb x (IZR width)
     || RBool.ltb y 0 || RBool.gtb y (IZR height)
  then true
  else
    let point := Rect_of_floats (x - 1) (y - 1) 2 2 in
    existsb (fun obstacle => colliderect obstacle point) (obstacles self).

Fixpoint cast_ray_loop (self : Env) (angle : R) (dists : list Z) : Z :=
  match dists with
  | [] => sensor_range
  | dist :: rest =>
      if ray_hit self angle dist then dist
      else cast_ray_loop self angle rest
  end.

Definition cast_ray (self : Env) (angle : R) : Z :=
  cast_ray_loop self angle (range 1 sensor_range).

(** *** get_distances, get_state *)

Definition get_distances (self : Env) : list R :=
  map (fun angle_offset =>
         let angle := (car_angle self + angle_offset)%R in
         let distance := cast_ray self angle in
         (IZR (Z.min distance 200) / 200)%R)
      [ (- PI / 3)%R; 0%R; (PI / 3)%R ].

Definition get_state (self : Env) : list R :=
  get_distances self ++ [ (IZR (car_speed self) / 5)%R ].

(** *** reset *)

(** [u] is the value [random.uniform] draws.  The first component is the
    object after the call, the second the returned state. *)
Definition reset (self : Env) (u : R) : Env * list R :=
  let self :=
    mkEnv (obstacles self)
          (IZR (width / 2)) (IZR (height / 2))
          (uniform 0 (2 * PI) u)
          3
          0%R
          0%Z
          0%R
          (IZR (width / 2), IZR (height / 2))
          0%Z in
  (self, get_state self).

(** [__init__]: the obstacles are generated, then [reset] is called. *)
Definition init (draws : list (Z * Z * Z * Z)) (u : R) : Env :=
  let self := mkEnv [] 0%R 0%R 0%R 0%Z 0%R 0%Z 0%R (0%R, 0%R) 0%Z in
  let self := set_obstacles self (generate_obstacles draws) in
  fst (reset self u).

(** *** check_collision *)

Definition check_collision (self : Env) : bool :=
  let car_rect :=
    Rect_of_floats (car_x self - IZR (car_size / 2))
                   (car_y self - IZR (car_size / 2))
                   car_size car_size in
  if RBool.ltb (car_x self) (IZR (car_size / 2))
     || RBool.gtb (car_x self) (IZR (width - car_size / 2))
     || RBool.ltb (car_y self) (IZR (car_size / 2))
     || RBool.gtb (car_y self) (IZR (height - car_size / 2))
  then true
  else existsb (fun obstacle => colliderect car_rect obstacle) (obstacles self).

(** *** step *)

(** The [if]/[elif] chain of [step] that maps the action to a command.  The
    chain has no [else]: an action outside 0..7 changes nothing. *)
Definition apply_action (self : Env) (action : Z) : Env :=
  if (action =? 0)%Z then
    set_car_velocity self (IZR (2 * car_speed self))
  else if (action =? 1)%Z then
    let self := set_car_angle self (car_angle self - 0.1)%R in
    set_car_velocity self (0.5 * IZR (car_speed self))%R
  else if (action =? 2)%Z then
    let self := set_car_angle self (car_angle self + 0.1)%R in
    set_car_velocity self (0.5 * IZR (car_speed self))%R
  else if ((action >=? 3) && (action <=? 7))%Z then
    let self := set_car_speed self (action - 2) in
    set_car_velocity self (IZR (1 * car_speed self))
  else self.

(** The position update: the car advances by its velocity along its
    heading. *)
Definition update_position (self : Env) : Env :=
  set_position self
    (car_x self + car_velocity self * cos (car_angle self))%R
    (car_y self + car_velocity self * sin (car_angle self))%R.

(** The local variables of [step] when it returns, with the object as the
    call leaves it.  The arithmetic is that of the reals:
    [distance_moved] is the exact square root, where the program has the
    rounded one ([Binary64.step_motion]). *)
Record Locals : Type := mkLocals {
  after : Env;
  old_x : R;
  old_y : R;
  collision : bool;
  distance_moved : R;
  min_distance : R;
  reward : R;
  done : bool
}.

Definition step_body (self : Env) (action : Z) : Locals :=
  let self := set_steps self (steps self + 1) in
  let old_x := car_x self in
  let old_y := car_y self in
  let self := apply_action self action in
  let self := update_position self in
  let collision := check_collision self in
  let self := if collision then set_position self old_x old_y else self in
  let distance_moved :=
    sqrt ((car_x self - old_x) ^ 2 + (car_y self - old_y) ^ 2) in
  let self := set_total_distance self (total_distance self + distance_moved) in
  let self :=
    if RBool.ltb distance_moved 0.5
    then set_stationary_steps self (stationary_steps self + 1)
    else set_stationary_steps self 0 in
  let reward := 0%R in
  let reward := (reward + distance_moved * 0.1)%R in
  let min_distance := min_list (get_distances self) in
  let reward :=
    if RBool.ltb min_distance 0.2
    then (reward - (0.2 - min_distance) * 5)%R else reward in
  let reward := if collision then (reward - 10)%R else reward in
  let reward :=
    if (stationary_steps self >? 10)%Z then (reward - 1)%R else reward in
  let reward :=
    if (car_speed self >=? 3)%Z then (reward + 0.1)%R else reward in
  let done :=
    collision || (steps self >? 1000)%Z || (stationary_steps self >? 50)%Z in
  mkLocals self old_x old_y collision distance_moved min_distance reward done.

(** The [info] of the returned tuple: always the empty dict. *)
Inductive Info : Type := EmptyDict.

(** [step] has no [raise] and calls nothing that raises on an integer
    action: every call returns.  The first component is the object after the
    call, the second the returned tuple [(state, reward, done, info)]. *)
Definition step (self : Env) (action : Z)
  : outcome (Env * (list R * R * bool * Info)) :=
  let l := step_body self action in
  Returned (after l, (get_state (after l), reward l, done l, EmptyDict)).

(** A component of the state vector is meant to lie in [0, 1]. *)
Definition in_unit_interval (c : R) : Prop := (0 <= c <= 1)%R.

(** The action indices of a training run: [train.py] builds the agent with
    [action_size=8]. *)
Definition valid_action (action : Z) : Prop := (0 <= action <= 7)%Z.

(** The states a run goes through: the object as [__init__] leaves it, and
    then as [reset] and [step] leave it. *)
Inductive reachable : Env -> Prop :=
| reach_init draws u :
    List.length draws = 8%nat -> Forall draw_in_range draws ->
    (0 <= u < 1)%R ->
    reachable (init draws u)
| reach_reset self u :
    reachable self -> (0 <= u < 1)%R ->
    reachable (fst (reset self u))
| reach_step self action :
    reachable self -> valid_action action ->
    reachable (after (step_body self action)).



(** The object of [step] at the collision test: the step is counted, the
    action applied and the position advanced. *)
Definition attempted (self : Env) (action : Z) : Env :=
  update_position (apply_action (set_steps self (steps self + 1)) action).

(** A list of actions, stepped one after the other. *)
Fixpoint run_actions (actions : list Z) (self : Env) : Env :=
  match actions with
  | [] => self
  | action :: rest => run_actions rest (after (step_body self action))
  end.

(** The centre of the car is within the margins that [check_collision]
    tests: half a car away from each edge of the arena. *)
Definition in_arena (self : Env) : Prop :=
  (15 <= car_x self <= 785 /\ 15 <= car_y self <= 585)%R.

(** A rectangle of positive size that lies within the arena. *)
Definition rect_in_arena (o : Rect) : Prop :=
  (0 <= left o /\ 0 < w o /\ left o + w o <= width
   /\ 0 <= top o /\ 0 < h o /\ top o + h o <= height)%Z.

(** A rectangle of positive size that overlaps the square of side 10 around
    the centre of the arena, where [reset] puts the car. *)
Definition covers_centre (o : Rect) : Prop :=
  (0 < w o /\ 0 < h o
   /\ left o < 405 /\ 395 < left o + w o
   /\ top o < 305 /\ 295 < top o + h o)%Z.

End CarSimulatorEnv.

(** ** train.py: one episode

    The inner loop of [train_agent] (and of [test_model_in_simulator] in
    [arduino_controller.py]):
    [while not done: action = agent.act(state); next_state, reward, done, _ =
    env.step(action); state = next_state; total_reward += reward].
    The agent is not part of these files; its choice is a function [act] of
    the number of the iteration (which stands for the agent's own state:
    exploration rate, random draws, network) and of the observed state.
    [remember] and [replay] write the agent only. *)

Module Training.

Import CarSimulatorEnv.

(** The loop, for at most [fuel] iterations; [i] iterations are done.  The
    result is the environment, the total reward and the number of
    iterations when [done] came back true. *)
Fixpoint episode_loop (fuel : nat) (act : nat -> list R -> Z) (i : nat)
    (env : Env) (state : list R) (total_reward : R)
  : option (Env * R * nat) :=
  match fuel with
  | O => None
  | S fuel' =>
      let action := act i state in
      match step env action with
      | Raised _ => None
      | Returned (env', (next_state, reward, done, _)) =>
          let total_reward := (total_reward + reward)%R in
          if done then Some (env', total_reward, S i)
          else episode_loop fuel' act (S i) env' next_state total_reward
      end
  end.

(** [state = env.reset(); total_reward = 0; done = False], then the loop. *)
Definition episode (fuel : nat) (act : nat -> list R -> Z) (env : Env) (u : R)
  : option (Env * R * nat) :=
  let '(env, state) := reset env u in
  episode_loop fuel act 0 env state 0%R.

End Training.

(** ** The motion of a step in binary64

    [CarSimulatorEnv] above reads Python's floats as real numbers.  This
    module repeats the part of [step] that moves the car (lines 113 to 153
    and the [done] flag of line 179) on binary64 floats, operation by
    operation, so that it can be evaluated as the program evaluates it.
    [cos_a] and [sin_a] are the two values that [math.cos(self.car_angle)]
    and [math.sin(self.car_angle)] return on lines 137 and 138.  The reward
    and the returned state need the cosines and sines of the three ray
    angles as well and are not repeated here.  [d**2] is read as [d * d]. *)

Module Binary64.

Import PrimFloat.

(** [float(z)] for an [int] of the size met here. *)
Definition of_int (z : Z) : float :=
  if (z <? 0)%Z then (- of_uint63 (Uint63.of_Z (- z)))%float
  else of_uint63 (Uint63.of_Z z).

(** C's conversion of a double to an int: the fractional part is
    dropped. *)
Definition int_of_float (f : float) : Z :=
  match FloatOps.Prim2SF f with
  | SpecFloat.S754_finite sign m e =>
      let magnitude :=
        if (0 <=? e)%Z then (Z.pos m * 2 ^ e)%Z else (Z.pos m / 2 ^ (- e))%Z in
      if sign then (- magnitude)%Z else magnitude
  | _ => 0%Z
  end.

Definition Rect_of_floats (x y : float) (w h : Z) : Rect :=
  mkRect (int_of_float x) (int_of_float y) w h.

Record Env : Type := mkEnv {
  obstacles : list Rect;
  car_x : float;
  car_y : float;
  car_angle : float;
  car_speed : Z;
  car_velocity : float;
  steps : Z;
  total_distance : float;
  stationary_steps : Z
}.

Definition set_position (self : Env) (x y : float) : Env :=
  mkEnv (obstacles self) x y (car_angle self) (car_speed self)
        (car_velocity self) (steps self) (total_distance self)
        (stationary_steps self).

Definition apply_action (self : Env) (action : Z) : Env :=
  if (action =? 0)%Z then
    mkEnv (obstacles self) (car_x self) (car_y self) (car_angle self)
          (car_speed self) (of_int (2 * car_speed self))
          (steps self) (total_distance self) (stationary_steps self)
  else if (action =? 1)%Z then
    mkEnv (obstacles self) (car_x self) (car_y self)
          (car_angle self - 0x1.999999999999ap-4)%float
          (car_speed self) (0.5 * of_int (car_speed self))%float
          (steps self) (total_distance self) (stationary_steps self)
  else if (action =? 2)%Z then
    mkEnv (obstacles self) (car_x self) (car_y self)
          (car_angle self + 0x1.999999999999ap-4)%float
          (car_speed self) (0.5 * of_int (car_speed self))%float
          (steps self) (total_distance self) (stationary_steps self)
  else if ((action >=? 3) && (action <=? 7))%Z then
    mkEnv (obstacles self) (car_x self) (car_y self) (car_angle self)
          (action - 2) (of_int (1 * (action - 2)))
          (steps self) (total_distance self) (stationary_steps self)
  else self.

Definition check_collision (self : Env) : bool :=
  let car_rect :=
    Rect_of_floats (car_x self - of_int (CarSimulatorEnv.car_size / 2))%float
                   (car_y self - of_int (CarSimulatorEnv.car_size / 2))%float
                   CarSimulatorEnv.car_size CarSimulatorEnv.car_size in
  if (car_x self <? of_int (CarSimulatorEnv.car_size / 2))%float
     || (of_int (CarSimulatorEnv.width - CarSimulatorEnv.car_size / 2)
         <? car_x self)%float
     || (car_y self <? of_int (CarSimulatorEnv.car_size / 2))%float
     || (of_int (CarSimulatorEnv.height - CarSimulatorEnv.car_size / 2)
         <? car_y self)%float
  then true
  else existsb (fun obstacle => colliderect car_rect obstacle) (obstacles self).

(** The locals of the motion part of [step], with the object after it. *)
Record Locals : Type := mkLocals {
  after : Env;
  collision : bool;
  distance_moved : float;
  done : bool
}.

Definition step_motion (cos_a sin_a : float) (self : Env) (action : Z)
  : Locals :=
  let self :=
    mkEnv (obstacles self) (car_x self) (car_y self) (car_angle self)
          (car_speed self) (car_velocity self) (steps self + 1)
          (total_distance self) (stationary_steps self) in
  let old_x := car_x self in
  let old_y := car_y self in
  let self := apply_action self action in
  let self :=
    set_position self (car_x self + car_velocity self * cos_a)%float
                      (car_y self + car_velocity self * sin_a)%float in
  let collision := check_collision self in
  let self := if collision then set_position self old_x old_y else self in
  let distance_moved :=
    sqrt ((car_x self - old_x) * (car_x self - old_x)
          + (car_y self - old_y) * (car_y self - old_y))%float in
  let self :=
    mkEnv (obstacles self) (car_x self) (car_y self) (car_angle self)
          (car_speed self) (car_velocity self) (steps self)
          (total_distance self + distance_moved)%float
          (stationary_steps self) in
  let self :=
    mkEnv (obstacles self) (car_x self) (car_y self) (car_angle self)
          (car_speed self) (car_velocity self) (steps self)
          (total_distance self)
          (if (distance_moved <? 0.5)%float
           then (stationary_steps self + 1)%Z else 0%Z) in
  let done :=
    collision || (steps self >? 1000)%Z || (stationary_steps self >? 50)%Z in
  mkLocals self collision distance_moved done.



(** The arena with the border walls only, the car as [reset] leaves it but
    for the heading and the speed level. *)
Definition open_arena (speed : Z) (heading : float) : Env :=
  mkEnv CarSimulatorEnv.border_walls 400 300 heading speed 0 0 0 0.



Definition half : float := 0.5%float.

(** Heading 0.125, with the values of [math.cos(0.125)] and
    [math.sin(0.125)], 0.992197667229329 and 0.12467473338522769. *)
Definition heading_eighth : float := 0x1p-3%float.

(** Heading 0.125 - 0.1, where a rotate to the left from heading 0.125
    leaves the car, with the values of [math.cos] and [math.sin] there,
    0.9996875162757026 and 0.024997395914712325. *)
Definition cos_fortieth : float := 0x1.ffd70ac93f49ep-1%float.
Definition sin_fortieth : float := 0x1.998ead7c162ccp-6%float.

End Binary64.

(** ** ArduinoAIController: the deployment side *)

Module ArduinoAIController.

Local Open Scope string_scope.

(** The dict [self.action_map]. *)
Definition action_map : list (Z * string) :=
  [ (0%Z, "W");
    (1%Z, "A");
    (2%Z, "D");
    (3%Z, "S");
    (4%Z, "1");
    (5%Z, "2");
    (6%Z, "3");
    (7%Z, "4");
    (8%Z, "5") ].

(** [d[key]] on a dict with integer keys. *)
Fixpoint dict_get (d : list (Z * string)) (key : Z) : outcome string :=
  match d with
  | [] => Raised "KeyError"
  | (k, v) :: rest => if (k =? key)%Z then Returned v else dict_get rest key
  end.

(** [command in '12345']: the substring test of Python. *)
Definition is_speed_command (command : string) : bool :=
  match index 0 command "12345" with
  | Some _ => true
  | None => false
  end.

(** [int(command)] on a string of decimal digits; any other string that is
    a substring of ['12345'] is empty, and [int('')] raises. *)
Fixpoint int_of_digits (acc : Z) (s : string) : outcome Z :=
  match s with
  | EmptyString => Returned acc
  | String c rest =>
      if (48 <=? nat_of_ascii c)%nat && (nat_of_ascii c <=? 57)%nat
      then int_of_digits (10 * acc + (Z.of_nat (nat_of_ascii c) - 48)) rest
      else Raised "ValueError"
  end.

(** [int] raises on the empty string and, as Python does from 3.11 on
    ([sys.int_max_str_digits], 4300 by default), on a string of more than
    4300 digits. *)
Definition int (s : string) : outcome Z :=
  match s with
  | EmptyString => Raised "ValueError"
  | _ =>
      if (4300 <? Z.of_nat (String.length s))%Z then Raised "ValueError"
      else int_of_digits 0 s
  end.

(** The serial side of the controller: [self.connected], whether
    [self.serial_port] holds a port (it is [None] until one is opened), and
    [written]: what [serial_port.write] has sent so far, oldest first. *)
Record Link : Type := mkLink {
  connected : bool;
  serial_port : bool;
  written : list string
}.

(** A port that is open and connected, with nothing sent yet. *)
Definition open_link : Link := mkLink true true [].

(** [send_command]: [write_ok] tells whether [serial_port.write] returns or
    raises.  The result is the serial side and [self.current_speed] after
    the call, and the value returned.  Without a connected port nothing is
    done.  Otherwise the command is written and a speed command sets the
    speed level; an exception, of the write or of [int] after it, is
    caught by the bare [except], which clears [self.connected]. *)
Definition send_command (write_ok : bool) (link : Link) (current_speed : Z)
    (command : string) : Link * Z * bool :=
  if connected link && serial_port link then
    if write_ok then
      let link' :=
        mkLink (connected link) (serial_port link) (written link ++ [command]) in
      if is_speed_command command then
        match int command with
        | Returned speed => (link', speed, true)
        | Raised _ =>
            (mkLink false (serial_port link') (written link'),
             current_speed, false)
        end
      else (link', current_speed, true)
    else (mkLink false (serial_port link) (written link), current_speed, false)
  else (link, current_speed, false).

(** One pass of the loop of [run_ai_control] for the action the agent
    chose: the command looked up and handed to [send_command], the serial
    side and the speed level after it.  A missing key raises [KeyError] out
    of the loop, before anything is sent. *)
Definition run_ai_control_pass (write_ok : bool) (link : Link)
    (current_speed : Z) (action : Z) : outcome (string * Link * Z) :=
  match dict_get action_map action with
  | Raised e => Raised e
  | Returned command =>
      let '(link', speed, _) := send_command write_ok link current_speed command in
      Returned (command, link', speed)
  end.

(** The pass on a connected port whose write succeeds, the case in which
    the command reaches the car: the command sent and the speed level after
    it. *)
Definition run_ai_control_round (current_speed : Z) (action : Z)
  : outcome (string * Z) :=
  match run_ai_control_pass true open_link current_speed action with
  | Raised e => Raised e
  | Returned (command, _, speed) => Returned (command, speed)
  end.

(** The fields of the controller that the control loop and the reader of
    the serial port share: the dict [self.distances] with its keys ['L'],
    ['C'] and ['R'], and [self.current_speed]. *)
Record Controller : Type := mkController {
  distances_L : Z;
  distances_C : Z;
  distances_R : Z;
  current_speed : Z
}.

(** The fields as [__init__] sets them. *)
Definition init_controller : Controller := mkController 100 100 100 3.

(** [self.distances[position] = distance] for a [position] that the
    pattern [[LCR]] matched. *)
Definition set_distance (self : Controller) (position : ascii) (distance : Z)
  : Controller :=
  if Ascii.eqb position "L" then
    mkController distance (distances_C self) (distances_R self) (current_speed self)
  else if Ascii.eqb position "C" then
    mkController (distances_L self) distance (distances_R self) (current_speed self)
  else
    mkController (distances_L self) (distances_C self) distance (current_speed self).

Definition get_state (self : Controller) : list R :=
  let left_dist := (IZR (Z.min (distances_L self) 200) / 200)%R in
  let center_dist := (IZR (Z.min (distances_C self) 200) / 200)%R in
  let right_dist := (IZR (Z.min (distances_R self) 200) / 200)%R in
  let speed_norm := (IZR (current_speed self) / 5)%R in
  [left_dist; center_dist; right_dist; speed_norm].

(** The pattern [\d], and the digits [int] accepts, on a line whose
    characters have code points 0..255 (every ASCII line, which is what the
    firmware sends, is one): among these code points the decimal digits
    are [0] to [9] only.  A [string] here is such a line, one character per
    code point; lines with characters beyond 255 are not modelled. *)
Definition is_digit (c : ascii) : bool :=
  (48 <=? nat_of_ascii c)%nat && (nat_of_ascii c <=? 57)%nat.

(** The longest run of digits at the head of a string, and what follows:
    what a greedy [\d*] takes. *)
Fixpoint span_digits (s : string) : string * string :=
  match s with
  | EmptyString => (EmptyString, EmptyString)
  | String c rest =>
      if is_digit c then
        let (digits, tail) := span_digits rest in (String c digits, tail)
      else (EmptyString, s)
  end.

(** [re.match(r"DIST:([LCR])(\d+):(\d+)", line)]: the three groups of the
    match, or [None].  The match is anchored at the head of the line only.
    The first [\d+] must stop at a colon, so it takes the whole run of
    digits; the second takes the whole run as well. *)
Definition match_DIST (line : string) : option (ascii * string * string) :=
  match line with
  | String "D" (String "I" (String "S" (String "T" (String ":"
      (String position rest))))) =>
      if Ascii.eqb position "L" || Ascii.eqb position "C"
         || Ascii.eqb position "R"
      then
        match span_digits rest with
        | (EmptyString, _) => None
        | (angle, String ":" rest') =>
            match span_digits rest' with
            | (EmptyString, _) => None
            | (distance, _) => Some (position, angle, distance)
            end
        | (_, _) => None
        end
      else None
  | _ => None
  end.

(** The body of the loop of [read_serial_data] for one line read, decoded
    and stripped.  An exception of [int] would be caught and printed; the
    fields stay as they are: that is the case of a run of more than 4300
    digits. *)
Definition read_serial_data (self : Controller) (line : string) : Controller :=
  match match_DIST line with
  | None => self
  | Some (position, angle, distance) =>
      match int angle, int distance with
      | Returned _, Returned d => set_distance self position d
      | _, _ => self
      end
  end.

(** What happens to the controller: the reader thread has read a line, or
    the control loop has got an action from the agent and makes a write
    that succeeds or fails. *)
Inductive event : Type :=
| Line (line : string)
| Action (write_ok : bool) (action : Z).

(** The controller as a whole: the fields the state vector is made from,
    and the serial side.  The reader's loop runs [while self.running and
    self.connected]: once the controller is disconnected no line is
    handled. *)
Definition handle (self : Controller * Link) (e : event)
  : outcome (Controller * Link) :=
  let (fields, link) := self in
  match e with
  | Line line =>
      if connected link
      then Returned (read_serial_data fields line, link)
      else Returned (fields, link)
  | Action write_ok action =>
      match run_ai_control_pass write_ok link (current_speed fields) action with
      | Raised exn => Raised exn
      | Returned (_, link', speed) =>
          Returned (mkController (distances_L fields) (distances_C fields)
                                 (distances_R fields) speed, link')
      end
  end.

Fixpoint run_events (events : list event) (self : Controller * Link)
  : outcome (Controller * Link) :=
  match events with
  | [] => Returned self
  | e :: rest =>
      match handle self e with
      | Raised exn => Raised exn
      | Returned self' => run_events rest self'
      end
  end.

(** A string of digits only, and a string whose first character is a
    digit. *)
Fixpoint all_digits (s : string) : bool :=
  match s with
  | EmptyString => true
  | String c rest => is_digit c && all_digits rest
  end.

Definition starts_with_digit (s : string) : bool :=
  match s with
  | EmptyString => false
  | String c _ => is_digit c
  end.

(** The controller whose state vector is in range. *)
Definition controller_ok (self : Controller) : Prop :=
  (0 <= distances_L self /\ 0 <= distances_C self /\ 0 <= distances_R self
   /\ 1 <= current_speed self <= 5)%Z.

(** An event the deployed agent can cause: any line, and an action of the
    nine that [DQNAgent(state_size=4, action_size=9)] chooses from. *)
Definition event_ok (e : event) : Prop :=
  match e with
  | Line _ => True
  | Action _ action => (0 <= action <= 8)%Z
  end.

End ArduinoAIController.

(** ** motor_controller.py: direct motor control *)

Module motor_controller.

(** An [int] in an f-string, and the line feed. *)
Definition str (z : Z) : string := NilZero.string_of_int (Z.to_int z).
Definition newline : string := String (ascii_of_nat 10) EmptyString.

(** *** MotorController *)

Module MotorController.

(** The fields, and [written]: what [serial_port.write] has sent so far,
    oldest first. *)
Record t : Type := mk {
  connected : bool;
  left_speed : Z;
  right_speed : Z;
  servo_angle : Z;
  distance : Z;
  running : bool;
  written : list string
}.

(** The fields as [__init__] sets them. *)
Definition init : t := mk false 0 0 90 0 true [].

(** [serial_port.write(data)] inside [try ... except: self.connected =
    False]: [write_ok] tells whether the write returns or raises. *)
Definition try_write (write_ok : bool) (self : t) (data : string) : t :=
  if write_ok then
    mk (connected self) (left_speed self) (right_speed self)
       (servo_angle self) (distance self) (running self)
       (written self ++ [data])
  else
    mk false (left_speed self) (right_speed self)
       (servo_angle self) (distance self) (running self) (written self).

(** [connect] with a port found: [ok] tells whether [serial.Serial] opens
    it. *)
Definition connect (ok : bool) (self : t) : t * bool :=
  if ok then
    (mk true (left_speed self) (right_speed self) (servo_angle self)
        (distance self) (running self) (written self), true)
  else (self, false).

Definition set_motors (write_ok : bool) (self : t) (left_speed right_speed : Z)
  : t * bool :=
  if negb (connected self) then (self, false)
  else
    let left_speed := Z.max (-255) (Z.min 255 left_speed) in
    let right_speed := Z.max (-255) (Z.min 255 right_speed) in
    let self :=
      mk (connected self) left_speed right_speed (servo_angle self)
         (distance self) (running self) (written self) in
    let command :=
      ("L:" ++ str left_speed ++ ",R:" ++ str right_speed ++ newline)%string in
    (try_write write_ok self command, write_ok).

Definition set_servo (write_ok : bool) (self : t) (angle : Z) : t * bool :=
  if negb (connected self) then (self, false)
  else
    let angle := Z.max 0 (Z.min 180 angle) in
    let self :=
      mk (connected self) (left_speed self) (right_speed self) angle
         (distance self) (running self) (written self) in
    let command := ("S:" ++ str angle ++ newline)%string in
    (try_write write_ok self command, write_ok).

Definition get_distance (write_ok : bool) (self : t) : t * Z :=
  let self :=
    if connected self then try_write write_ok self ("D" ++ newline)%string
    else self in
  (self, distance self).

(** The two speeds are zeroed after the write, inside the [try]: a write
    that raises leaves them. *)
Definition emergency_stop (write_ok : bool) (self : t) : t :=
  if connected self then
    if write_ok then
      let self := try_write true self ("STOP" ++ newline)%string in
      mk (connected self) 0 0 (servo_angle self) (distance self)
         (running self) (written self)
    else try_write false self ("STOP" ++ newline)%string
  else self.

Definition disconnect (write_ok : bool) (self : t) : t :=
  let self :=
    mk (connected self) (left_speed self) (right_speed self)
       (servo_angle self) (distance self) false (written self) in
  if connected self then
    let self := fst (set_motors write_ok self 0 0) in
    mk false (left_speed self) (right_speed self) (servo_angle self)
       (distance self) (running self) (written self)
  else self.

(** A call of one of the methods above, with the outcome of the write (or
    of the opening of the port) it makes. *)
Inductive call : Type :=
| Connect (ok : bool)
| SetMotors (write_ok : bool) (left_speed right_speed : Z)
| SetServo (write_ok : bool) (angle : Z)
| GetDistance (write_ok : bool)
| EmergencyStop (write_ok : bool)
| Disconnect (write_ok : bool).

Definition do_call (self : t) (c : call) : t :=
  match c with
  | Connect ok => fst (connect ok self)
  | SetMotors write_ok l r => fst (set_motors write_ok self l r)
  | SetServo write_ok angle => fst (set_servo write_ok self angle)
  | GetDistance write_ok => fst (get_distance write_ok self)
  | EmergencyStop write_ok => emergency_stop write_ok self
  | Disconnect write_ok => disconnect write_ok self
  end.

Definition do_calls (calls : list call) (self : t) : t :=
  fold_left do_call calls self.

(** The recorded speeds and angle are ones the hardware accepts. *)
Definition in_range (self : t) : Prop :=
  (-255 <= left_speed self <= 255 /\ -255 <= right_speed self <= 255
   /\ 0 <= servo_angle self <= 180)%Z.

End MotorController.

(** *** KeyboardController *)

Module KeyboardController.

(** The escape key and Ctrl-C as [get_key] returns them. *)
Definition ESC : ascii := ascii_of_nat 27.
Definition CTRL_C : ascii := ascii_of_nat 3.

(** [self.keys_pressed], a set of keys, kept as a list without
    repetition, and [self.servo_angle].  [self.speed_multiplier] is 0.8
    throughout.  The locals [left] and [right] of [get_motor_speeds] are
    [left_speed] and [right_speed] here. *)
Record t : Type := mk {
  keys_pressed : list ascii;
  servo_angle : Z
}.

Definition init : t := mk [] 90.

Definition speed_multiplier : R := 0.8%R.

(** [key in s], [s.add(key)] and the removal of a key from the set. *)
Definition mem (key : ascii) (s : list ascii) : bool :=
  existsb (Ascii.eqb key) s.

Definition add (key : ascii) (s : list ascii) : list ascii :=
  if mem key s then s else key :: s.

Definition discard (key : ascii) (s : list ascii) : list ascii :=
  filter (fun k => negb (Ascii.eqb k key)) s.

(** [update]: [key] is what [get_key] returned, [None] for [None] and for
    the empty string.  The second component is the value returned: [True]
    on the escape key, which is not added to the set, [None] otherwise. *)
Definition update (self : t) (key : option ascii) : t * bool :=
  let add_key :=
    match key with
    | Some k =>
        if Ascii.eqb k ESC then None
        else Some (mk (add k (keys_pressed self)) (servo_angle self))
    | None => Some self
    end in
  match add_key with
  | None => (self, true)
  | Some self =>
      if (5 <? List.length (keys_pressed self))%nat
      then (mk [] (servo_angle self), false)
      else (self, false)
  end.

Definition get_motor_speeds (self : t) (key : option ascii)
  : t * (Z * Z) :=
  let left_speed := 0%Z in
  let right_speed := 0%Z in
  let base_speed := int_of_float (255 * speed_multiplier) in
  let self := fst (update self key) in
  let keys := keys_pressed self in
  let '(left_speed, right_speed) :=
    if mem "w" keys then (base_speed, base_speed)
    else if mem "s" keys then ((- base_speed)%Z, (- base_speed)%Z)
    else (left_speed, right_speed) in
  let '(left_speed, right_speed) :=
    if mem "a" keys then
      if (left_speed =? 0)%Z then ((- base_speed / 2)%Z, (base_speed / 2)%Z)
      else (int_of_float (IZR left_speed * 0.5), right_speed)
    else if mem "d" keys then
      if (right_speed =? 0)%Z then ((base_speed / 2)%Z, (- base_speed / 2)%Z)
      else (left_speed, int_of_float (IZR right_speed * 0.5))
    else (left_speed, right_speed) in
  let keys := discard "w" (discard "a" (discard "s" (discard "d" keys))) in
  (mk keys (servo_angle self), (left_speed, right_speed)).

Definition get_servo_angle (self : t) : t * option Z :=
  let keys := keys_pressed self in
  if mem "q" keys then
    let angle := Z.max 0 (servo_angle self - 10) in
    (mk (discard "q" keys) angle, Some angle)
  else if mem "e" keys then
    let angle := Z.min 180 (servo_angle self + 10) in
    (mk (discard "e" keys) angle, Some angle)
  else if mem "r" keys then
    (mk (discard "r" keys) 90, Some 90%Z)
  else (self, None).

Definition should_stop (self : t) : bool :=
  mem ESC (keys_pressed self) || mem CTRL_C (keys_pressed self).

(** None of the four movement keys is in the set. *)
Definition no_movement_key (self : t) : Prop :=
  mem "w" (keys_pressed self) = false /\ mem "a" (keys_pressed self) = false
  /\ mem "s" (keys_pressed self) = false /\ mem "d" (keys_pressed self) = false.

End KeyboardController.

(** *** JoystickController *)

Module JoystickController.

Definition deadzone : R := 0.15%R.

(** [axis0] and [axis1] are what [get_axis(0)] and [get_axis(1)] return. *)
Definition get_motor_speeds (axis0 axis1 : R) : Z * Z :=
  let x := axis0 in
  let y := (- axis1)%R in
  let x := if RBool.ltb (Rabs x) deadzone then 0%R else x in
  let y := if RBool.ltb (Rabs y) deadzone then 0%R else y in
  let forward := (y * 255)%R in
  let turn := (x * 200)%R in
  let left := int_of_float (forward + turn) in
  let right := int_of_float (forward - turn) in
  let left := Z.max (-255) (Z.min 255 left) in
  let right := Z.max (-255) (Z.min 255 right) in
  (left, right).

(** [numaxes] is what [get_numaxes()] returns and [axis2] what
    [get_axis(2)] returns; the result is the new [self.servo_angle] and the
    value returned. *)
Definition get_servo_angle (servo_angle : Z) (numaxes : Z) (axis2 : R)
  : Z * option Z :=
  if (numaxes >=? 3)%Z then
    let rx := axis2 in
    if RBool.gtb (Rabs rx) deadzone then
      let servo_angle := int_of_float (90 + rx * 90) in
      (servo_angle, Some servo_angle)
    else (servo_angle, None)
  else (servo_angle, None).

End JoystickController.

(** *** RobotApp *)

Module RobotApp.

(** One pass of the loop of [run] with the keyboard as input: the speeds
    and the angle are read from the keyboard and sent to the motors, and
    the exit test is made.  The last component is [self.running] after the
    pass. *)
Definition run_pass (write_ok : bool) (key : option ascii)
    (input : KeyboardController.t) (motor : MotorController.t)
  : KeyboardController.t * MotorController.t * bool :=
  let '(input, (left_speed, right_speed)) := KeyboardController.get_motor_speeds input key in
  let '(input, servo) := KeyboardController.get_servo_angle input in
  let motor := fst (MotorController.set_motors write_ok motor left_speed right_speed) in
  let motor :=
    match servo with
    | Some angle => fst (MotorController.set_servo write_ok motor angle)
    | None => motor
    end in
  (input, motor, negb (KeyboardController.should_stop input)).

(** The passes for the keys that [get_key] returns one after the other; the
    loop goes on while [self.running] is true. *)
Fixpoint run_passes (write_ok : bool) (keys : list (option ascii))
    (input : KeyboardController.t) (motor : MotorController.t)
  : KeyboardController.t * MotorController.t * bool :=
  match keys with
  | [] => (input, motor, true)
  | key :: rest =>
      let '(input, motor, running) := run_pass write_ok key input motor in
      if running then run_passes write_ok rest input motor
      else (input, motor, false)
  end.

End RobotApp.

End motor_controller.

(** ** ArduinoPS5Controller.py: the gamepad controller *)

Module PS5RobotController.

(** What the callers pass to [send_command]: a [str] or a [bytes]
    object. *)
Inductive pyvalue : Type :=
| Str (s : string)
| Bytes (b : string).

(** [cmd.encode()]: a [str] has the method, a [bytes] object has not. *)
Definition encode (cmd : pyvalue) : outcome string :=
  match cmd with
  | Str s => Returned s
  | Bytes _ => Raised "AttributeError"
  end.

(** The fields, and [written]: what [serial_port.write] has sent so far,
    oldest first. *)
Record t : Type := mk {
  connected : bool;
  servo_angle : Z;
  running : bool;
  written : list string
}.

Definition disconnected (self : t) : t :=
  mk false (servo_angle self) (running self) (written self).

(** [write_ok] tells whether [serial_port.write] returns or raises. *)
Definition send_command (write_ok : bool) (self : t) (cmd : pyvalue) : t :=
  if connected self then
    match encode cmd with
    | Raised _ => disconnected self
    | Returned data =>
        if write_ok
        then mk (connected self) (servo_angle self) (running self)
                (written self ++ [data])
        else disconnected self
    end
  else self.

Definition send_motor_command (write_ok : bool) (self : t)
    (left_speed right_speed : Z) : t :=
  if connected self then
    let command :=
      ("M," ++ motor_controller.str left_speed ++ ","
            ++ motor_controller.str right_speed
            ++ motor_controller.newline)%string in
    match encode (Str command) with
    | Raised _ => disconnected self
    | Returned data =>
        if write_ok
        then mk (connected self) (servo_angle self) (running self)
                (written self ++ [data])
        else disconnected self
    end
  else self.

(** The button numbers of [__init__]. *)
Definition BUTTON_X : Z := 0.
Definition BUTTON_CIRCLE : Z := 1.
Definition BUTTON_TRIANGLE : Z := 2.
Definition BUTTON_SQUARE : Z := 3.
Definition BUTTON_L1 : Z := 4.
Definition BUTTON_R1 : Z := 5.
Definition BUTTON_OPTIONS : Z := 9.
Definition BUTTON_PS : Z := 10.

Definition handle_button_press (write_ok : bool) (self : t) (button : Z) : t :=
  if (button =? BUTTON_X)%Z then send_command write_ok self (Bytes "H")
  else if (button =? BUTTON_CIRCLE)%Z then
    send_command write_ok self (Bytes "M")
  else if (button =? BUTTON_TRIANGLE)%Z then
    let self := mk (connected self) 90 (running self) (written self) in
    send_command write_ok self (Bytes "C")
  else if (button =? BUTTON_SQUARE)%Z then
    send_motor_command write_ok self 0 0
  else if (button =? BUTTON_L1)%Z then
    send_motor_command write_ok self (-200) 200
  else if (button =? BUTTON_R1)%Z then
    send_motor_command write_ok self 200 (-200)
  else if (button =? BUTTON_OPTIONS)%Z then
    mk (connected self) (servo_angle self) false (written self)
  else if (button =? BUTTON_PS)%Z then
    let self := send_motor_command write_ok self 0 0 in
    send_command write_ok self (Bytes "X")
  else self.

(** The servo part of [process_controller_input]; [right_x] is what
    [get_axis] returned for the right stick, before the dead zone is
    applied. *)
Definition process_servo (write_ok : bool) (self : t) (right_x : R) : t :=
  let right_x := if RBool.ltb (Rabs right_x) 0.15 then 0%R else right_x in
  if RBool.gtb (Rabs right_x) 0.15 then
    let angle := int_of_float (90 + right_x * 90) in
    let angle := Z.max 0 (Z.min 180 angle) in
    let self := mk (connected self) angle (running self) (written self) in
    send_command write_ok self
      (Bytes ("V" ++ motor_controller.str angle ++ motor_controller.newline))
  else self.

End PS5RobotController.

(** ** Scenarios *)

Module Scenario.

Import CarSimulatorEnv.

(** An arena with the border walls only; the car at the centre, heading
    along the x axis, as [reset] leaves it but for the heading drawn and the
    speed level. *)
Definition open_arena (speed : Z) : Env :=
  mkEnv border_walls 400 300 0 speed 0 0 0 (400%R, 300%R) 0.

(** The same arena with the car one step short of the right-hand wall. *)
Definition near_wall : Env :=
  mkEnv border_walls 784 300 0 3 0 0 0 (400%R, 300%R) 0.

(** The open arena after 1000 steps of an episode. *)
Definition late_episode : Env :=
  mkEnv border_walls 400 300 0 3 0 1000 0 (400%R, 300%R) 0.

(** The car on the horizontal line through the centre of the open arena, at
    the integer abscissa [x], heading along the x axis at speed level 3. *)
Definition eastbound (x : Z) (self : Env) : Prop :=
  obstacles self = border_walls
  /\ car_angle self = 0%R
  /\ car_y self = 300%R
  /\ car_x self = IZR x
  /\ car_speed self = 3%Z.

(** Eight draws of which the first puts an obstacle on the centre of the
    arena. *)
Definition blocking_draws : list (Z * Z * Z * Z) :=
  [ (380, 280, 40, 40); (250, 120, 60, 45); (520, 130, 100, 40);
    (650, 200, 40, 100); (120, 400, 80, 80); (300, 450, 50, 50);
    (560, 420, 70, 60); (700, 500, 40, 40) ]%Z.

(** Eight draws of [generate_obstacles], each within the bounds of its
    [random.randint]. *)
Definition draws : list (Z * Z * Z * Z) :=
  [ (100, 100, 40, 40); (250, 120, 60, 45); (520, 130, 100, 40);
    (650, 200, 40, 100); (120, 400, 80, 80); (300, 450, 50, 50);
    (560, 420, 70, 60); (700, 500, 40, 40) ]%Z.

End Scenario.

(** * Properties *)

Import CarSimulatorEnv.

Local Open Scope R_scope.

(** ** Booleans of real comparisons *)

Lemma ltb_true (x y : R) : RBool.ltb x y = true <-> x < y.
Proof.
  unfold RBool.ltb. destruct (Rlt_dec x y) as [H | H]; split; intro K.
  - exact H.
  - reflexivity.
  - discriminate K.
  - contradiction.
Qed.

Lemma ltb_false (x y : R) : RBool.ltb x y = false <-> y <= x.
Proof.
  unfold RBool.ltb. destruct (Rlt_dec x y) as [H | H]; split; intro K.
  - discriminate K.
  - lra.
  - lra.
  - reflexivity.
Qed.

Lemma gtb_true (x y : R) : RBool.gtb x y = true <-> y < x.
Proof. unfold RBool.gtb. apply ltb_true. Qed.

Lemma gtb_false (x y : R) : RBool.gtb x y = false <-> x <= y.
Proof. unfold RBool.gtb. apply ltb_false. Qed.

(** On integers the comparisons of reals are those of [Z]. *)
Lemma ltb_IZR (a b : Z) : RBool.ltb (IZR a) (IZR b) = (a <? b)%Z.
Proof.
  destruct (Z.ltb_spec a b) as [H | H].
  - apply ltb_true. apply IZR_lt. exact H.
  - apply ltb_false. apply IZR_le. exact H.
Qed.

Lemma gtb_IZR (a b : Z) : RBool.gtb (IZR a) (IZR b) = (a >? b)%Z.
Proof. unfold RBool.gtb. rewrite ltb_IZR. rewrite Z.gtb_ltb. reflexivity. Qed.

(** ** pygame *)

Lemma int_of_float_IZR (z : Z) : int_of_float (IZR z) = z.
Proof.
  unfold int_of_float. destruct (Rle_dec 0 (IZR z)) as [H | H].
  - apply ZfloorZ.
  - apply Zceil_eq. lra.
Qed.


(** ** What [apply_action] and [update_position] leave alone *)

Ltac by_action action :=
  unfold apply_action;
  destruct (action =? 0)%Z; [reflexivity |];
  destruct (action =? 1)%Z; [reflexivity |];
  destruct (action =? 2)%Z; [reflexivity |];
  destruct ((action >=? 3) && (action <=? 7))%Z; reflexivity.

Lemma apply_action_obstacles self action :
  obstacles (apply_action self action) = obstacles self.
Proof. by_action action. Qed.

Lemma apply_action_car_x self action :
  car_x (apply_action self action) = car_x self.
Proof. by_action action. Qed.

Lemma apply_action_car_y self action :
  car_y (apply_action self action) = car_y self.
Proof. by_action action. Qed.

Lemma apply_action_steps self action :
  steps (apply_action self action) = steps self.
Proof. by_action action. Qed.

Lemma apply_action_total_distance self action :
  total_distance (apply_action self action) = total_distance self.
Proof. by_action action. Qed.

Lemma apply_action_stationary_steps self action :
  stationary_steps (apply_action self action) = stationary_steps self.
Proof. by_action action. Qed.

(** An action outside 0..7 falls through the whole chain. *)
Lemma apply_action_invalid self action :
  ~ valid_action action -> apply_action self action = self.
Proof.
  unfold valid_action, apply_action. intro H.
  destruct (Z.eqb_spec action 0) as [E | _]; [lia |].
  destruct (Z.eqb_spec action 1) as [E | _]; [lia |].
  destruct (Z.eqb_spec action 2) as [E | _]; [lia |].
  destruct (Z.geb_spec action 3) as [G | G]; simpl; [| reflexivity].
  destruct (Z.leb_spec action 7) as [L | L]; [lia | reflexivity].
Qed.

(** ** The fields of the object after [step] *)

Section StepFields.

Variable self : Env.
Variable action : Z.

Let l := step_body self action.

Lemma step_collision : collision l = check_collision (attempted self action).
Proof. reflexivity. Qed.

Lemma step_old_position : old_x l = car_x self /\ old_y l = car_y self.
Proof. split; reflexivity. Qed.

Lemma step_steps : steps (after l) = (steps self + 1)%Z.
Proof.
  unfold l, step_body.
  destruct (check_collision _); destruct (RBool.ltb _ 0.5); simpl;
    rewrite apply_action_steps; reflexivity.
Qed.

Lemma step_obstacles : obstacles (after l) = obstacles self.
Proof.
  unfold l, step_body.
  destruct (check_collision _); destruct (RBool.ltb _ 0.5); simpl;
    rewrite apply_action_obstacles; reflexivity.
Qed.

Lemma step_car_angle :
  car_angle (after l) = car_angle (apply_action self action).
Proof.
  unfold l, step_body.
  destruct (check_collision _); destruct (RBool.ltb _ 0.5); simpl;
    by_action action.
Qed.

Lemma step_car_speed :
  car_speed (after l) = car_speed (apply_action self action).
Proof.
  unfold l, step_body.
  destruct (check_collision _); destruct (RBool.ltb _ 0.5); simpl;
    by_action action.
Qed.

Lemma step_car_velocity :
  car_velocity (after l) = car_velocity (apply_action self action).
Proof.
  unfold l, step_body.
  destruct (check_collision _); destruct (RBool.ltb _ 0.5); simpl;
    by_action action.
Qed.

(** The position after the step: the old one on a collision, the advanced
    one otherwise. *)
Lemma step_position :
  car_x (after l) =
    (if collision l then car_x self else car_x (attempted self action))
  /\ car_y (after l) =
    (if collision l then car_y self else car_y (attempted self action)).
Proof.
  unfold l, step_body, attempted.
  destruct (check_collision _); destruct (RBool.ltb _ 0.5); simpl;
    split; reflexivity.
Qed.

Lemma step_distance_moved :
  distance_moved l =
    sqrt ((car_x (after l) - car_x self) ^ 2
          + (car_y (after l) - car_y self) ^ 2).
Proof.
  unfold l, step_body.
  destruct (check_collision _); destruct (RBool.ltb _ 0.5); reflexivity.
Qed.

Lemma step_total_distance :
  total_distance (after l) = total_distance self + distance_moved l.
Proof.
  unfold l, step_body.
  destruct (check_collision _); destruct (RBool.ltb _ 0.5); simpl;
    rewrite apply_action_total_distance; reflexivity.
Qed.

Lemma step_stationary_steps :
  stationary_steps (after l) =
    if RBool.ltb (distance_moved l) 0.5
    then (stationary_steps self + 1)%Z else 0%Z.
Proof.
  unfold l, step_body.
  destruct (check_collision _); destruct (RBool.ltb _ 0.5); simpl;
    try rewrite apply_action_stationary_steps; reflexivity.
Qed.


(** The reward is the sum of the five terms, in the order of the code. *)
Lemma step_reward :
  reward l =
    (if (car_speed (after l) >=? 3)%Z then fun r => r + 0.1 else fun r => r)
    ((if (stationary_steps (after l) >? 10)%Z then fun r => r - 1 else fun r => r)
     ((if collision l then fun r => r - 10 else fun r => r)
      ((if RBool.ltb (min_distance l) 0.2
        then fun r => r - (0.2 - min_distance l) * 5 else fun r => r)
       (0 + distance_moved l * 0.1)))).
Proof.
  unfold l, step_body. cbn [reward after collision min_distance distance_moved].
  destruct (car_speed _ >=? 3)%Z; destruct (stationary_steps _ >? 10)%Z;
    destruct (check_collision _); destruct (RBool.ltb (min_list _) 0.2);
    reflexivity.
Qed.

Lemma step_done :
  done l =
    collision l || (steps (after l) >? 1000)%Z
    || (stationary_steps (after l) >? 50)%Z.
Proof. reflexivity. Qed.

Lemma step_returns :
  step self action =
    Returned (after l, (get_state (after l), reward l, done l, EmptyDict)).
Proof. reflexivity. Qed.

End StepFields.

(** ** Collisions at integer positions *)

(** Where the car stands on integer coordinates, the collision test is a
    test on integers. *)
Lemma check_collision_at (self : Env) (x y : Z) :
  car_x self = IZR x -> car_y self = IZR y ->
  check_collision self =
    ((x <? 15) || (x >? 785) || (y <? 15) || (y >? 585)
     || existsb (fun obstacle => colliderect (mkRect (x - 15) (y - 15) 30 30) obstacle)
                (obstacles self))%Z.
Proof.
  intros Hx Hy. unfold check_collision, Rect_of_floats.
  rewrite Hx, Hy.
  rewrite !ltb_IZR, !gtb_IZR, <- !minus_IZR, !int_of_float_IZR.
  change (car_size / 2)%Z with 15%Z.
  change (width - 15)%Z with 785%Z.
  change (height - 15)%Z with 585%Z.
  change car_size with 30%Z.
  destruct ((x <? 15) || (x >? 785) || (y <? 15) || (y >? 585))%Z; reflexivity.
Qed.

(** Past the right-hand margin the car collides, whatever the obstacles. *)
Lemma check_collision_right (self : Env) :
  785 < car_x self -> check_collision self = true.
Proof.
  intro H. unfold check_collision.
  assert (G : RBool.gtb (car_x self) (IZR (width - car_size / 2)) = true).
  { apply gtb_true. change (width - car_size / 2)%Z with 785%Z. exact H. }
  rewrite G. rewrite orb_true_r. reflexivity.
Qed.

Lemma near_wall_forward_collides :
  collision (step_body Scenario.near_wall 0) = true.
Proof.
  rewrite step_collision. apply check_collision_right.
  simpl. rewrite cos_0. lra.
Qed.

Lemma near_wall_speed5_collides :
  collision (step_body Scenario.near_wall 7) = true.
Proof.
  rewrite step_collision. apply check_collision_right.
  simpl. rewrite cos_0. lra.
Qed.

(** ** Termination of an episode *)

(** C1.  The [done] flag that [step] returns is true exactly when the step
    collided, or the step count (which the step has just incremented) is
    above 1000, or the low-motion counter (as the step leaves it) is above
    50.  It holds for every action index, valid or not. *)
Theorem step_done_iff (self : Env) (action : Z) :
  let l := step_body self action in
  step self action =
    Returned (after l, (get_state (after l), reward l, done l, EmptyDict))
  /\ collision l = check_collision (attempted self action)
  /\ steps (after l) = (steps self + 1)%Z
  /\ (done l = true <->
      collision l = true
      \/ (steps (after l) > 1000)%Z
      \/ (stationary_steps (after l) > 50)%Z).
Proof.
  intro l. split; [reflexivity |]. split; [reflexivity |].
  split; [apply step_steps |].
  unfold l. rewrite step_done.
  rewrite !orb_true_iff.
  rewrite !Z.gtb_gt. tauto.
Qed.

(** ** Collisions *)

(** A step that collides counts no distance. *)
Lemma collision_distance_zero (self : Env) (action : Z) :
  collision (step_body self action) = true ->
  distance_moved (step_body self action) = 0.
Proof.
  intro Hc.
  destruct (step_position self action) as [Hx Hy]. rewrite Hc in Hx, Hy.
  rewrite step_distance_moved, Hx, Hy.
  replace ((car_x self - car_x self) ^ 2 + (car_y self - car_y self) ^ 2)
    with 0 by ring.
  apply sqrt_0.
Qed.

(** C2.  On a step that collides, the position after the step is the
    position before it; the collision is still reported: the step ends the
    episode, no distance is counted, and the reward carries the collision
    penalty of 10. *)
Theorem collision_restores_position (self : Env) (action : Z) :
  let l := step_body self action in
  collision l = true ->
  car_x (after l) = car_x self
  /\ car_y (after l) = car_y self
  /\ done l = true
  /\ distance_moved l = 0
  /\ reward l <= 0.1 - 10.
Proof.
  intros l Hc.
  destruct (step_position self action) as [Hx Hy]. fold l in Hx, Hy.
  rewrite Hc in Hx, Hy.
  assert (Hd : distance_moved l = 0)
    by (apply collision_distance_zero; exact Hc).
  repeat split.
  - exact Hx.
  - exact Hy.
  - unfold l. rewrite step_done. fold l. rewrite Hc. reflexivity.
  - exact Hd.
  - unfold l. rewrite step_reward. fold l. rewrite Hc, Hd.
    destruct (car_speed (after l) >=? 3)%Z;
      destruct (stationary_steps (after l) >? 10)%Z;
      destruct (RBool.ltb (min_distance l) 0.2) eqn:Hm;
      try (apply ltb_true in Hm); lra.
Qed.

Lemma collision_restores_position_witness :
  collision (step_body Scenario.near_wall 0) = true
  /\ car_x (after (step_body Scenario.near_wall 0)) = 784
  /\ car_y (after (step_body Scenario.near_wall 0)) = 300.
Proof.
  split; [exact near_wall_forward_collides |].
  destruct (collision_restores_position Scenario.near_wall 0
              near_wall_forward_collides) as (Hx & Hy & _).
  split; [exact Hx | exact Hy].
Defined.

(** C10.  A step that collides rolls back the position and nothing else:
    the heading a rotate action set and the speed level (and velocity) a
    speed-select action set are those of the object after the step. *)
Theorem collision_keeps_heading_and_speed (self : Env) (action : Z) :
  let l := step_body self action in
  collision l = true ->
  (car_x (after l) = car_x self /\ car_y (after l) = car_y self)
  /\ car_angle (after l) = car_angle (apply_action self action)
  /\ car_speed (after l) = car_speed (apply_action self action)
  /\ car_velocity (after l) = car_velocity (apply_action self action)
  /\ (action = 1%Z -> car_angle (after l) = car_angle self - 0.1)
  /\ (action = 2%Z -> car_angle (after l) = car_angle self + 0.1)
  /\ ((3 <= action <= 7)%Z -> car_speed (after l) = (action - 2)%Z).
Proof.
  intros l Hc.
  destruct (step_position self action) as [Hx Hy]. fold l in Hx, Hy.
  rewrite Hc in Hx, Hy.
  split; [split; assumption |].
  unfold l. rewrite step_car_angle, step_car_speed, step_car_velocity.
  repeat split.
  - intros ->. reflexivity.
  - intros ->. reflexivity.
  - intros [H3 H7]. unfold apply_action.
    destruct (Z.eqb_spec action 0) as [E | _]; [lia |].
    destruct (Z.eqb_spec action 1) as [E | _]; [lia |].
    destruct (Z.eqb_spec action 2) as [E | _]; [lia |].
    destruct (Z.geb_spec action 3) as [G | G]; [| lia].
    destruct (Z.leb_spec action 7) as [L | L]; [| lia].
    reflexivity.
Qed.

Lemma collision_keeps_heading_and_speed_witness :
  collision (step_body Scenario.near_wall 7) = true
  /\ car_speed Scenario.near_wall = 3%Z
  /\ car_speed (after (step_body Scenario.near_wall 7)) = 5%Z
  /\ car_x (after (step_body Scenario.near_wall 7)) = 784.
Proof.
  split; [exact near_wall_speed5_collides |].
  split; [reflexivity |].
  destruct (collision_keeps_heading_and_speed Scenario.near_wall 7
              near_wall_speed5_collides)
    as ((Hx & _) & _ & _ & _ & _ & _ & Hs).
  split; [apply Hs; lia | exact Hx].
Defined.

(** Unfolds one step of a scenario down to its fields, leaving the
    arithmetic of the fields as it is written. *)
Ltac env_fields :=
  cbn [attempted update_position apply_action set_position set_car_velocity
       set_car_angle set_car_speed set_steps set_total_distance
       set_stationary_steps Scenario.open_arena Scenario.near_wall
       obstacles car_x car_y car_angle car_speed car_velocity steps
       total_distance stationary_steps
       Z.eqb Pos.eqb Z.geb Z.leb Z.compare Pos.compare Pos.compare_cont andb].

Lemma open_arena_forward_free (speed : Z) :
  (1 <= speed <= 5)%Z ->
  collision (step_body (Scenario.open_arena speed) 0) = false.
Proof.
  intro Hs. rewrite step_collision.
  rewrite (check_collision_at _ (400 + 2 * speed) 300).
  - env_fields.
    unfold border_walls, colliderect, width, height. cbn [existsb left top w h].
    repeat match goal with
           | |- context [(?a <? ?b)%Z] => destruct (Z.ltb_spec a b); try lia
           | |- context [(?a >? ?b)%Z] => rewrite (Z.gtb_ltb a b)
           end.
    all: reflexivity.
  - env_fields. rewrite cos_0, plus_IZR. lra.
  - env_fields. rewrite sin_0. lra.
Qed.

(** ** Actions outside the action set *)

(** C5, as the code has it.  [step] validates nothing: for an action index
    outside 0..7 it returns as for any other, with the heading, the speed
    level and the velocity as the previous call left them, and tries the
    position one more stride of that velocity along that heading. *)
Theorem step_invalid_action_coasts (self : Env) (action : Z) :
  ~ valid_action action ->
  let l := step_body self action in
  step self action =
    Returned (after l, (get_state (after l), reward l, done l, EmptyDict))
  /\ car_angle (after l) = car_angle self
  /\ car_speed (after l) = car_speed self
  /\ car_velocity (after l) = car_velocity self
  /\ car_x (attempted self action) =
       car_x self + car_velocity self * cos (car_angle self)
  /\ car_y (attempted self action) =
       car_y self + car_velocity self * sin (car_angle self).
Proof.
  intros Hbad l. split; [reflexivity |].
  unfold l. rewrite step_car_angle, step_car_speed, step_car_velocity.
  unfold attempted.
  rewrite (apply_action_invalid self action Hbad).
  rewrite (apply_action_invalid (set_steps self (steps self + 1)) action Hbad).
  repeat split; reflexivity.
Qed.

Lemma step_invalid_action_coasts_witness :
  ~ valid_action 8
  /\ car_speed (after (step_body (Scenario.open_arena 3) 8)) = 3%Z.
Proof.
  assert (Hbad : ~ valid_action 8) by (unfold valid_action; lia).
  split; [exact Hbad |].
  destruct (step_invalid_action_coasts (Scenario.open_arena 3) 8 Hbad)
    as (_ & _ & Hs & _).
  exact Hs.
Defined.

(** C5 as stated fails: action 8, which is outside the action set of the
    training run, makes [step] return; nothing is raised. *)
Lemma step_action_8_returns :
  ~ valid_action 8
  /\ (exists result, step (Scenario.open_arena 3) 8 = Returned result)
  /\ (forall exn, step (Scenario.open_arena 3) 8 <> Raised exn).
Proof.
  split; [unfold valid_action; lia |].
  split.
  - eexists. reflexivity.
  - intros exn H. discriminate H.
Qed.

(** ** The reward *)

(** C3.  On a step without collision that leaves the low-motion counter at
    10 or below and the speed level below 3, the reward is
    [0.1 * d - (5 * (0.2 - m) if m < 0.2 else 0)], for [d] the distance
    moved and [m] the least of the three normalised sensor readings taken
    after the move; no other term contributes. *)
Theorem reward_without_penalties (self : Env) (action : Z) :
  let l := step_body self action in
  let d := distance_moved l in
  let m := min_distance l in
  collision l = false ->
  (stationary_steps (after l) <= 10)%Z ->
  (car_speed (after l) < 3)%Z ->
  reward l = 0.1 * d - (if Rlt_dec m 0.2 then 5 * (0.2 - m) else 0)
  /\ m = min_list (get_distances (after l))
  /\ d = sqrt ((car_x (after l) - car_x self) ^ 2
               + (car_y (after l) - car_y self) ^ 2).
Proof.
  intros l d m Hc Hst Hsp.
  split; [| split; [reflexivity | apply step_distance_moved]].
  unfold l. rewrite step_reward. fold l. rewrite Hc.
  destruct (Z.geb_spec (car_speed (after l)) 3) as [G | _]; [lia |].
  rewrite Z.gtb_ltb.
  destruct (Z.ltb_spec 10 (stationary_steps (after l))) as [G | _]; [lia |].
  fold d m. unfold RBool.ltb.
  destruct (Rlt_dec m 0.2); lra.
Qed.

Lemma open_arena_forward_counter (speed : Z) :
  (stationary_steps (after (step_body (Scenario.open_arena speed) 0)) <= 10)%Z.
Proof.
  rewrite step_stationary_steps.
  destruct (RBool.ltb _ 0.5); simpl; lia.
Qed.

Lemma reward_without_penalties_witness :
  let l := step_body (Scenario.open_arena 1) 0 in
  collision l = false
  /\ reward l =
       0.1 * distance_moved l
       - (if Rlt_dec (min_distance l) 0.2
          then 5 * (0.2 - min_distance l) else 0).
Proof.
  intro l.
  assert (Hc : collision l = false) by (apply open_arena_forward_free; lia).
  split; [exact Hc |].
  assert (Hsp : (car_speed (after l) < 3)%Z).
  { unfold l. rewrite step_car_speed. simpl. lia. }
  destruct (reward_without_penalties (Scenario.open_arena 1) 0 Hc
              (open_arena_forward_counter 1) Hsp) as [H _].
  exact H.
Defined.

(** ** The ray march *)

Lemma in_range (a b d : Z) : In d (range a b) <-> (a <= d < b)%Z.
Proof.
  unfold range. rewrite in_map_iff. split.
  - intros (i & <- & Hi). apply in_seq in Hi. lia.
  - intro H. exists (Z.to_nat (d - a)). split; [lia |].
    apply in_seq. lia.
Qed.

(** The loop returns the first distance of the list that hits, and the
    sensor range when none does. *)
Lemma cast_ray_loop_first (self : Env) (angle : R) (dists : list Z) :
  (cast_ray_loop self angle dists = sensor_range
   /\ forall d, In d dists -> ray_hit self angle d = false)
  \/ (exists before rest,
        dists = before ++ cast_ray_loop self angle dists :: rest
        /\ ray_hit self angle (cast_ray_loop self angle dists) = true
        /\ forall d, In d before -> ray_hit self angle d = false).
Proof.
  induction dists as [| dist rest IH]; simpl.
  - left. split; [reflexivity | intros d []].
  - destruct (ray_hit self angle dist) eqn:Hhit.
    + right. exists [], rest. split; [reflexivity |].
      split; [exact Hhit | intros d []].
    + destruct IH as [[Hmax Hnone] | (before & rest' & Heq & Hh & Hb)].
      * left. split; [exact Hmax |].
        intros d [<- | Hd]; [exact Hhit | apply Hnone; exact Hd].
      * right. exists (dist :: before), rest'. split.
        { simpl. f_equal. exact Heq. }
        split; [exact Hh |].
        intros d [<- | Hd]; [exact Hhit | apply Hb; exact Hd].
Qed.

(** In [range 1 200] the members before a given one are the smaller ones. *)
Lemma range_split_before (a b d : Z) (before rest : list Z) :
  range a b = before ++ d :: rest ->
  forall e, (a <= e < d)%Z -> In e before.
Proof.
  unfold range. generalize (Z.to_nat (b - a)) as n.
  intros n. revert a before.
  induction n as [| n IH]; intros a before Heq e He.
  - destruct before; discriminate Heq.
  - rewrite <- cons_seq in Heq. simpl in Heq.
    destruct before as [| x before'].
    + simpl in Heq. injection Heq as Hd _. lia.
    + simpl in Heq. injection Heq as Hx Heq'.
      destruct (Z.eq_dec e a) as [-> | Hne].
      * left. lia.
      * right. apply (IH (a + 1)%Z).
        -- rewrite <- Heq'. rewrite <- seq_shift, map_map.
           apply map_ext. intro i. lia.
        -- lia.
Qed.

(** [cast_ray] either finds nothing at the distances 1..199 and returns the
    sensor range, or returns the first of those distances that hits. *)
Lemma cast_ray_cases (self : Env) (angle : R) :
  (cast_ray self angle = sensor_range
   /\ forall dist, (1 <= dist < sensor_range)%Z ->
                   ray_hit self angle dist = false)
  \/ ((1 <= cast_ray self angle < sensor_range)%Z
      /\ ray_hit self angle (cast_ray self angle) = true
      /\ forall dist, (1 <= dist < cast_ray self angle)%Z ->
                      ray_hit self angle dist = false).
Proof.
  unfold cast_ray.
  destruct (cast_ray_loop_first self angle (range 1 sensor_range))
    as [[Hmax Hnone] | (before & rest & Heq & Hh & Hb)].
  - left. split; [exact Hmax |].
    intros dist Hd. apply Hnone. apply in_range. exact Hd.
  - right.
    set (r := cast_ray_loop self angle (range 1 sensor_range)) in *.
    assert (Hin : In r (range 1 sensor_range)).
    { rewrite Heq. apply in_or_app. right. left. reflexivity. }
    apply in_range in Hin.
    split; [exact Hin |]. split; [exact Hh |].
    intros dist Hd. apply Hb.
    apply (range_split_before _ _ _ _ _ Heq). exact Hd.
Qed.

Lemma cast_ray_bounds (self : Env) (angle : R) :
  (1 <= cast_ray self angle <= sensor_range)%Z.
Proof.
  destruct (cast_ray_cases self angle) as [[Hmax _] | [Hr _]].
  - rewrite Hmax. unfold sensor_range. lia.
  - lia.
Qed.

(** C4.  [cast_ray] never returns more than the sensor range (200), and it
    returns exactly the sensor range when none of the points it samples
    along the ray is out of the arena or on an obstacle.  When it returns
    less, that is the first sampled distance that is. *)
Theorem cast_ray_max_range (self : Env) (angle : R) :
  (1 <= cast_ray self angle <= sensor_range)%Z
  /\ ((forall dist, (1 <= dist < sensor_range)%Z ->
                    ray_hit self angle dist = false) ->
      cast_ray self angle = sensor_range)
  /\ ((cast_ray self angle < sensor_range)%Z ->
      ray_hit self angle (cast_ray self angle) = true
      /\ forall dist, (1 <= dist < cast_ray self angle)%Z ->
                      ray_hit self angle dist = false).
Proof.
  split; [apply cast_ray_bounds |].
  destruct (cast_ray_cases self angle) as [[Hmax Hnone] | (Hr & Hh & Hb)].
  - split; [intros _; exact Hmax |].
    intro Hlt. rewrite Hmax in Hlt. lia.
  - split.
    + intro Hnone. rewrite (Hnone _ Hr) in Hh. discriminate Hh.
    + intros _. split; assumption.
Qed.

(** Where the sampled point has integer coordinates, the test of the loop
    body is a test on integers. *)
Lemma ray_hit_at (self : Env) (angle : R) (dist x y : Z) :
  car_x self + IZR dist * cos angle = IZR x ->
  car_y self + IZR dist * sin angle = IZR y ->
  ray_hit self angle dist =
    ((x <? 0) || (x >? 800) || (y <? 0) || (y >? 600)
     || existsb (fun obstacle => colliderect obstacle (mkRect (x - 1) (y - 1) 2 2))
                (obstacles self))%Z.
Proof.
  intros Hx Hy. unfold ray_hit, Rect_of_floats.
  rewrite Hx, Hy.
  rewrite !ltb_IZR, !gtb_IZR, <- !minus_IZR, !int_of_float_IZR.
  change width with 800%Z. change height with 600%Z.
  destruct ((x <? 0) || (x >? 800) || (y <? 0) || (y >? 600))%Z; reflexivity.
Qed.

(** From the centre of the open arena the ray along the x axis meets
    nothing within the sensor range. *)
Lemma open_arena_ray_free (speed dist : Z) :
  (1 <= dist < sensor_range)%Z ->
  ray_hit (Scenario.open_arena speed) 0 dist = false.
Proof.
  unfold sensor_range. intro Hd.
  rewrite (ray_hit_at _ _ _ (400 + dist) 300).
  - env_fields.
    unfold border_walls, colliderect, width, height. cbn [existsb left top w h].
    repeat match goal with
           | |- context [(?a <? ?b)%Z] => destruct (Z.ltb_spec a b); try lia
           | |- context [(?a >? ?b)%Z] => rewrite (Z.gtb_ltb a b)
           end.
    all: reflexivity.
  - env_fields. rewrite cos_0, plus_IZR. lra.
  - env_fields. rewrite sin_0. lra.
Qed.

Lemma cast_ray_max_range_witness :
  cast_ray (Scenario.open_arena 3) 0 = 200%Z.
Proof.
  destruct (cast_ray_max_range (Scenario.open_arena 3) 0) as (_ & H & _).
  apply H. intros dist Hd. apply open_arena_ray_free. exact Hd.
Defined.

(** ** The state vector and the speed level *)

Lemma get_distances_in_unit_interval (self : Env) :
  List.length (get_distances self) = 3%nat
  /\ Forall in_unit_interval (get_distances self).
Proof.
  split; [reflexivity |].
  unfold get_distances. apply Forall_forall. intros c Hc.
  apply in_map_iff in Hc. destruct Hc as (offset & <- & _).
  destruct (cast_ray_bounds self (car_angle self + offset)) as [Hlo Hhi].
  unfold sensor_range in Hhi.
  set (d := cast_ray self (car_angle self + offset)) in *.
  assert (H1 : (1 <= Z.min d 200 <= 200)%Z) by lia.
  destruct H1 as [Ha Hb]. apply IZR_le in Ha, Hb.
  unfold in_unit_interval. split.
  - apply Rmult_le_reg_r with 200; lra.
  - apply Rmult_le_reg_r with 200; lra.
Qed.

Lemma get_state_in_unit_interval (self : Env) :
  (1 <= car_speed self <= 5)%Z ->
  List.length (get_state self) = 4%nat
  /\ Forall in_unit_interval (get_state self).
Proof.
  intros [Hlo Hhi]. unfold get_state.
  destruct (get_distances_in_unit_interval self) as [Hlen Hall].
  split.
  - rewrite length_app, Hlen. reflexivity.
  - apply Forall_app. split; [exact Hall |].
    constructor; [| constructor].
    apply IZR_le in Hlo, Hhi. unfold in_unit_interval. lra.
Qed.

Lemma apply_action_speed_range (self : Env) (action : Z) :
  (1 <= car_speed self <= 5)%Z ->
  (1 <= car_speed (apply_action self action) <= 5)%Z.
Proof.
  intro H. unfold apply_action.
  destruct (action =? 0)%Z; [exact H |].
  destruct (action =? 1)%Z; [exact H |].
  destruct (action =? 2)%Z; [exact H |].
  destruct (Z.geb_spec action 3) as [G | G]; [| exact H].
  destruct (Z.leb_spec action 7) as [L | L]; [| exact H].
  simpl. lia.
Qed.

(** The speed level is between 1 and 5 in every state of a run. *)
Lemma reachable_speed_range (self : Env) :
  reachable self -> (1 <= car_speed self <= 5)%Z.
Proof.
  induction 1 as [draws u _ _ _ | self u _ _ _ | self action _ IH _].
  - simpl. lia.
  - simpl. lia.
  - rewrite step_car_speed. apply apply_action_speed_range. exact IH.
Qed.

(** C6.  The state vector [reset] returns and the state vector [step]
    returns for a valid action have four components, each in [0, 1], and
    the speed level of the car is then between 1 and 5. *)
Theorem state_and_speed_in_range (self : Env) :
  reachable self ->
  (forall u,
      snd (reset self u) = get_state (fst (reset self u))
      /\ List.length (snd (reset self u)) = 4%nat
      /\ Forall in_unit_interval (snd (reset self u))
      /\ (1 <= car_speed (fst (reset self u)) <= 5)%Z)
  /\ (forall action,
         valid_action action ->
         let l := step_body self action in
         step self action =
           Returned (after l, (get_state (after l), reward l, done l, EmptyDict))
         /\ List.length (get_state (after l)) = 4%nat
         /\ Forall in_unit_interval (get_state (after l))
         /\ (1 <= car_speed (after l) <= 5)%Z).
Proof.
  intro Hreach. split.
  - intro u.
    assert (Hs : (1 <= car_speed (fst (reset self u)) <= 5)%Z)
      by (simpl; lia).
    destruct (get_state_in_unit_interval _ Hs) as [Hlen Hall].
    split; [reflexivity |]. split; [exact Hlen |]. split; [exact Hall | exact Hs].
  - intros action Hvalid l.
    assert (Hs : (1 <= car_speed (after l) <= 5)%Z).
    { unfold l. rewrite step_car_speed. apply apply_action_speed_range.
      apply reachable_speed_range. exact Hreach. }
    destruct (get_state_in_unit_interval _ Hs) as [Hlen Hall].
    split; [reflexivity |]. split; [exact Hlen |]. split; [exact Hall | exact Hs].
Qed.

Lemma scenario_draws_in_range : Forall draw_in_range Scenario.draws.
Proof.
  unfold Scenario.draws.
  repeat (constructor; [unfold draw_in_range, width, height; lia |]).
  constructor.
Qed.

Lemma scenario_init_reachable : reachable (init Scenario.draws 0).
Proof.
  apply reach_init.
  - reflexivity.
  - exact scenario_draws_in_range.
  - lra.
Qed.

Lemma state_and_speed_in_range_witness :
  reachable (init Scenario.draws 0)
  /\ valid_action 0
  /\ Forall in_unit_interval
            (get_state (after (step_body (init Scenario.draws 0) 0)))
  /\ (1 <= car_speed (after (step_body (init Scenario.draws 0) 0)) <= 5)%Z.
Proof.
  assert (Hvalid : valid_action 0) by (unfold valid_action; lia).
  split; [exact scenario_init_reachable |].
  split; [exact Hvalid |].
  destruct (state_and_speed_in_range _ scenario_init_reachable) as [_ Hstep].
  destruct (Hstep 0%Z Hvalid) as (_ & _ & Hall & Hs).
  split; [exact Hall | exact Hs].
Defined.

(** ** reset *)

Lemma init_obstacles (draws : list (Z * Z * Z * Z)) (u : R) :
  obstacles (init draws u) = generate_obstacles draws.
Proof. reflexivity. Qed.

(** The obstacles of a run are those generated at construction: [reset] and
    [step] hand them on. *)
Lemma reachable_obstacles (self : Env) :
  reachable self ->
  exists draws, List.length draws = 8%nat
                /\ obstacles self = generate_obstacles draws.
Proof.
  induction 1 as [draws u Hlen _ _ | self u _ IH _ | self action _ IH _].
  - exists draws. split; [exact Hlen | reflexivity].
  - exact IH.
  - rewrite step_obstacles. exact IH.
Qed.

(** C9.  [reset] puts the car at the centre of the arena, (400, 300), with
    speed level 3 and the heading that [random.uniform(0, 2 * pi)] draws,
    which is in [0, 2 * pi); it zeroes the step count, the total distance
    and the low-motion counter, returns the state of the object it leaves,
    and leaves the obstacles as they were.  That the draw is uniform is the
    contract of [random.uniform], taken as given. *)
Theorem reset_restarts_episode (self : Env) (u : R) :
  0 <= u < 1 ->
  let self' := fst (reset self u) in
  car_x self' = IZR (width / 2) /\ car_y self' = IZR (height / 2)
  /\ car_x self' = 400 /\ car_y self' = 300
  /\ car_speed self' = 3%Z
  /\ car_angle self' = uniform 0 (2 * PI) u
  /\ 0 <= car_angle self' < 2 * PI
  /\ steps self' = 0%Z
  /\ total_distance self' = 0
  /\ stationary_steps self' = 0%Z
  /\ snd (reset self u) = get_state self'
  /\ obstacles self' = obstacles self.
Proof.
  intros [Hlo Hhi] self'.
  assert (Hpi := PI_RGT_0).
  repeat split; try reflexivity.
  - unfold self'. simpl. unfold uniform. nra.
  - unfold self'. simpl. unfold uniform. nra.
Qed.

Lemma reset_restarts_episode_witness :
  0 <= 1 / 2 < 1
  /\ car_angle (fst (reset Scenario.near_wall (1 / 2))) = PI
  /\ car_x (fst (reset Scenario.near_wall (1 / 2))) = 400
  /\ obstacles (fst (reset Scenario.near_wall (1 / 2))) = border_walls.
Proof.
  assert (Hu : 0 <= 1 / 2 < 1) by lra.
  split; [exact Hu |].
  destruct (reset_restarts_episode Scenario.near_wall (1 / 2) Hu)
    as (_ & _ & Hx & _ & _ & Ha & _ & _ & _ & _ & _ & Ho).
  split; [| split; [exact Hx | exact Ho]].
  rewrite Ha. unfold uniform. lra.
Defined.

(** ** Training actions against deployment commands *)

Import ArduinoAIController.

(** In training the actions 3..7 select the speed levels 1..5. *)
Lemma training_speed_select (self : Env) (action : Z) :
  (3 <= action <= 7)%Z ->
  car_speed (apply_action self action) = (action - 2)%Z.
Proof.
  intros [H3 H7]. unfold apply_action.
  destruct (Z.eqb_spec action 0) as [E | _]; [lia |].
  destruct (Z.eqb_spec action 1) as [E | _]; [lia |].
  destruct (Z.eqb_spec action 2) as [E | _]; [lia |].
  destruct (Z.geb_spec action 3) as [G | G]; [| lia].
  destruct (Z.leb_spec action 7) as [L | L]; [| lia].
  reflexivity.
Qed.

(** In deployment the same indices send the backward command (3) and the
    commands of the speed levels 1..4 (4..7): never the level that training
    selected. *)
Lemma deployment_speed_select (current_speed action : Z) :
  (3 <= action <= 7)%Z ->
  run_ai_control_round current_speed action =
    if (action =? 3)%Z then Returned ("S"%string, current_speed)
    else Returned (string_of_list_ascii
                     [ascii_of_nat (Z.to_nat (action - 3) + 48)],
                   (action - 3)%Z).
Proof.
  intro H.
  assert (E : action = 3%Z \/ action = 4%Z \/ action = 5%Z
              \/ action = 6%Z \/ action = 7%Z) by lia.
  destruct E as [-> | [-> | [-> | [-> | ->]]]]; reflexivity.
Qed.

(** C7 fails on the code.  Action 4 selects speed level 2 in the training
    environment; the deployment table sends ["1"] for it, which sets speed
    level 1.  Action 3 selects speed level 1 in training; the deployment
    table sends ["S"], the backward command, which sets no speed level. *)
Theorem deployment_map_off_by_one (self : Env) (current_speed : Z) :
  car_speed (apply_action self 4) = 2%Z
  /\ run_ai_control_round current_speed 4 = Returned ("1"%string, 1%Z)
  /\ car_speed (apply_action self 3) = 1%Z
  /\ run_ai_control_round current_speed 3 = Returned ("S"%string, current_speed).
Proof. repeat split. Qed.

(** ** Driving forward *)




(** *** The open arena, driving toward the right-hand wall *)

Lemma eastbound_attempted (x : Z) (self : Env) :
  Scenario.eastbound x self ->
  car_x (attempted self 0) = IZR (x + 6)
  /\ car_y (attempted self 0) = 300
  /\ obstacles (attempted self 0) = border_walls.
Proof.
  intros (Ho & Ha & Hy & Hx & Hs). env_fields.
  rewrite Ha, Hx, Hy, Hs, Ho, cos_0, sin_0, plus_IZR.
  change (2 * 3)%Z with 6%Z.
  split; [lra | split; [lra | reflexivity]].
Qed.

Lemma eastbound_collision (x : Z) (self : Env) :
  Scenario.eastbound x self ->
  collision (step_body self 0) = negb ((25 <=? x + 6) && (x + 6 <=? 775))%Z.
Proof.
  intro He. destruct (eastbound_attempted x self He) as (Hx & Hy & Ho).
  rewrite step_collision, (check_collision_at _ _ _ Hx Hy), Ho.
  unfold border_walls, colliderect, width, height. cbn [existsb left top w h].
  repeat match goal with
         | |- context [(?a >? ?b)%Z] => rewrite (Z.gtb_ltb a b)
         end.
  destruct (Z.leb_spec 25 (x + 6)); destruct (Z.leb_spec (x + 6) 775);
    repeat match goal with
           | |- context [(?a <? ?b)%Z] => destruct (Z.ltb_spec a b); try lia
           end;
    reflexivity.
Qed.

Lemma eastbound_step (x : Z) (self : Env) :
  Scenario.eastbound x self ->
  (25 <= x + 6 <= 775)%Z ->
  collision (step_body self 0) = false
  /\ Scenario.eastbound (x + 6) (after (step_body self 0)).
Proof.
  intros He Hr.
  assert (Hc : collision (step_body self 0) = false).
  { rewrite (eastbound_collision _ _ He).
    destruct (Z.leb_spec 25 (x + 6)); [| lia].
    destruct (Z.leb_spec (x + 6) 775); [reflexivity | lia]. }
  split; [exact Hc |].
  destruct (eastbound_attempted x self He) as (Hx & Hy & _).
  destruct (step_position self 0) as [Px Py]. rewrite Hc in Px, Py.
  destruct He as (Ho & Ha & _ & _ & Hs).
  unfold Scenario.eastbound.
  rewrite step_obstacles, step_car_angle, step_car_speed, Px, Py.
  repeat split; assumption.
Qed.


(** One more step and the car is on the wall. *)
Lemma eastbound_hits_wall (self : Env) :
  Scenario.eastbound 772 self -> collision (step_body self 0) = true.
Proof. intro He. rewrite (eastbound_collision _ _ He). reflexivity. Qed.


(** *** The same run in binary64 *)






(** In binary64 the low-motion counter can grow without a collision: at
    speed level 1 a rotate to the left from heading 0.125 moves the car by
    0.49999999999999156, which is less than 0.5. *)
Lemma rotate_counts_as_low_motion :
  let l := Binary64.step_motion Binary64.cos_fortieth Binary64.sin_fortieth
             (Binary64.open_arena 1 Binary64.heading_eighth) 1 in
  Binary64.collision l = false
  /\ PrimFloat.ltb (Binary64.distance_moved l) Binary64.half = true
  /\ Binary64.stationary_steps (Binary64.after l) = 1%Z.
Proof. vm_compute. repeat split; reflexivity. Qed.

(** ** Further facts on steps without collision *)

Lemma apply_action_set_steps (self : Env) (n action : Z) :
  apply_action (set_steps self n) action = set_steps (apply_action self action) n.
Proof. by_action action. Qed.

(** In exact arithmetic, without collision the distance moved is the
    velocity the action set. *)
Lemma free_step_distance (self : Env) (action : Z) :
  collision (step_body self action) = false ->
  0 <= car_velocity (apply_action self action) ->
  distance_moved (step_body self action) =
    car_velocity (apply_action self action).
Proof.
  intros Hc Hv.
  rewrite step_distance_moved.
  destruct (step_position self action) as [Hx Hy]. rewrite Hc in Hx, Hy.
  rewrite Hx, Hy. unfold attempted, update_position.
  cbn [car_x car_y set_position].
  rewrite apply_action_set_steps.
  cbn [car_x car_y car_velocity car_angle set_steps].
  rewrite apply_action_car_x, apply_action_car_y.
  set (v := car_velocity (apply_action self action)) in *.
  set (a := car_angle (apply_action self action)).
  replace ((car_x self + v * cos a - car_x self) ^ 2
           + (car_y self + v * sin a - car_y self) ^ 2)
    with (v ^ 2 * (Rsqr (sin a) + Rsqr (cos a)))
    by (unfold Rsqr; ring).
  rewrite sin2_cos2, Rmult_1_r.
  apply sqrt_pow2. exact Hv.
Qed.

(** Every valid action sets a velocity of at least 0.5. *)
Lemma valid_action_velocity (self : Env) (action : Z) :
  (1 <= car_speed self <= 5)%Z -> valid_action action ->
  0.5 <= car_velocity (apply_action self action).
Proof.
  intros [Hlo Hhi] [H0 H7]. unfold apply_action.
  destruct (Z.eqb_spec action 0) as [E | N0].
  { cbn [car_velocity set_car_velocity]. rewrite mult_IZR.
    apply IZR_le in Hlo. lra. }
  destruct (Z.eqb_spec action 1) as [E | N1].
  { cbn [car_velocity set_car_velocity car_speed set_car_angle].
    apply IZR_le in Hlo. lra. }
  destruct (Z.eqb_spec action 2) as [E | N2].
  { cbn [car_velocity set_car_velocity car_speed set_car_angle].
    apply IZR_le in Hlo. lra. }
  destruct (Z.geb_spec action 3) as [G | G]; [| lia].
  destruct (Z.leb_spec action 7) as [L | L]; [| lia].
  cbn [andb car_velocity set_car_velocity car_speed set_car_speed].
  assert (H1 : (1 <= 1 * (action - 2))%Z) by lia.
  apply IZR_le in H1. lra.
Qed.

(** In exact arithmetic, with a valid action, a step that does not collide
    moves the car by at least 0.5 and so resets the low-motion counter. *)
Lemma free_step_resets_counter (self : Env) (action : Z) :
  (1 <= car_speed self <= 5)%Z -> valid_action action ->
  collision (step_body self action) = false ->
  stationary_steps (after (step_body self action)) = 0%Z.
Proof.
  intros Hs Hv Hc.
  assert (Hvel := valid_action_velocity self action Hs Hv).
  rewrite step_stationary_steps.
  rewrite (free_step_distance self action Hc) by lra.
  assert (Hge : RBool.ltb (car_velocity (apply_action self action)) 0.5 = false)
    by (apply ltb_false; exact Hvel).
  rewrite Hge. reflexivity.
Qed.

(** ** No penetration *)

Lemma check_collision_ext (a b : Env) :
  car_x a = car_x b -> car_y a = car_y b -> obstacles a = obstacles b ->
  check_collision a = check_collision b.
Proof.
  intros Hx Hy Ho. unfold check_collision. rewrite Hx, Hy, Ho. reflexivity.
Qed.

Lemma attempted_obstacles (self : Env) (action : Z) :
  obstacles (attempted self action) = obstacles self.
Proof.
  unfold attempted, update_position. cbn [obstacles set_position].
  rewrite apply_action_obstacles. reflexivity.
Qed.

(** A car that is clear of the walls and obstacles stays clear of them,
    whatever the action. *)
Lemma step_never_penetrates (self : Env) (action : Z) :
  check_collision self = false ->
  check_collision (after (step_body self action)) = false.
Proof.
  intro Hclear.
  destruct (step_position self action) as [Hx Hy].
  destruct (collision (step_body self action)) eqn:Hc.
  - rewrite <- Hclear. apply check_collision_ext.
    + exact Hx.
    + exact Hy.
    + apply step_obstacles.
  - rewrite <- Hc. rewrite step_collision.
    apply check_collision_ext.
    + exact Hx.
    + exact Hy.
    + rewrite step_obstacles, attempted_obstacles. reflexivity.
Qed.

(** ** The three ways an episode ends *)

(** By collision: the car runs into the right-hand wall on its first step. *)
Example done_by_collision :
  let l := step_body Scenario.near_wall 0 in
  collision l = true /\ steps (after l) = 1%Z
  /\ stationary_steps (after l) = 1%Z /\ done l = true.
Proof.
  cbv zeta. set (l := step_body Scenario.near_wall 0).
  assert (Hc : collision l = true) by exact near_wall_forward_collides.
  assert (Hd := collision_distance_zero Scenario.near_wall 0 Hc).
  repeat split; try assumption.
  - unfold l. rewrite step_steps. reflexivity.
  - unfold l in *. rewrite step_stationary_steps, Hd.
    assert (Hlt : RBool.ltb 0 0.5 = true) by (apply ltb_true; lra).
    rewrite Hlt. reflexivity.
  - unfold l in *. rewrite step_done, Hc. reflexivity.
Qed.

(** By the step count: step 1001 of an episode ends it, without collision
    and with the car moving. *)
Example done_by_step_count :
  let l := step_body Scenario.late_episode 0 in
  collision l = false /\ steps (after l) = 1001%Z
  /\ stationary_steps (after l) = 0%Z /\ done l = true.
Proof.
  cbv zeta. set (l := step_body Scenario.late_episode 0).
  assert (He : Scenario.eastbound 400 Scenario.late_episode)
    by (repeat split).
  destruct (eastbound_step 400 _ He ltac:(lia)) as [Hc _]. fold l in Hc.
  assert (Hst : stationary_steps (after l) = 0%Z).
  { apply free_step_resets_counter.
    - simpl. lia.
    - unfold valid_action. lia.
    - exact Hc. }
  assert (Hn : steps (after l) = 1001%Z)
    by (unfold l; rewrite step_steps; reflexivity).
  repeat split; try assumption.
  unfold l in *. rewrite step_done, Hc, Hn, Hst. reflexivity.
Qed.

(** By the low-motion counter: with the counter at 50, a step that moves
    the car by less than 0.5 ends the episode.  Without collision only a
    step outside the action set (here action 8 at rest) moves that
    little. *)
Example done_by_low_motion :
  let self := set_stationary_steps (Scenario.open_arena 3) 50 in
  let l := step_body self 8 in
  collision l = false /\ steps (after l) = 1%Z
  /\ stationary_steps (after l) = 51%Z /\ done l = true.
Proof.
  cbv zeta.
  set (self := set_stationary_steps (Scenario.open_arena 3) 50).
  set (l := step_body self 8).
  assert (Hc : collision l = false).
  { unfold l. rewrite step_collision.
    rewrite (check_collision_at _ 400 300).
    - reflexivity.
    - unfold self. env_fields. lra.
    - unfold self. env_fields. lra. }
  assert (Hd : distance_moved l = 0).
  { unfold l. rewrite free_step_distance.
    - reflexivity.
    - exact Hc.
    - simpl. lra. }
  assert (Hst : stationary_steps (after l) = 51%Z).
  { unfold l in *. rewrite step_stationary_steps, Hd.
    assert (Hlt : RBool.ltb 0 0.5 = true) by (apply ltb_true; lra).
    rewrite Hlt. reflexivity. }
  assert (Hn : steps (after l) = 1%Z)
    by (unfold l; rewrite step_steps; reflexivity).
  repeat split; try assumption.
  unfold l in *. rewrite step_done, Hc, Hn, Hst. reflexivity.
Qed.

(** * Further properties of the environment *)

(** ** The car stays clear and stays in the arena *)

Lemma run_actions_app (a b : list Z) (self : Env) :
  run_actions (a ++ b) self = run_actions b (run_actions a self).
Proof.
  revert self. induction a as [| x a IH]; intro self; simpl.
  - reflexivity.
  - apply IH.
Qed.

(** X1.  A car that is clear of the arena margins and of every obstacle is
    still clear of them after any sequence of actions, valid or not. *)
Theorem run_never_penetrates (actions : list Z) (self : Env) :
  check_collision self = false ->
  check_collision (run_actions actions self) = false.
Proof.
  revert self. induction actions as [| action rest IH]; intros self Hclear.
  - exact Hclear.
  - simpl. apply IH. apply step_never_penetrates. exact Hclear.
Qed.

Lemma open_arena_clear : check_collision (Scenario.open_arena 3) = false.
Proof.
  rewrite (check_collision_at _ 400 300).
  - reflexivity.
  - reflexivity.
  - reflexivity.
Qed.

Lemma run_never_penetrates_witness :
  check_collision (run_actions [0; 1; 7; 8]%Z (Scenario.open_arena 3)) = false.
Proof.
  apply (run_never_penetrates [0; 1; 7; 8]%Z (Scenario.open_arena 3)).
  exact open_arena_clear.
Defined.

(** Where the collision test passes, the centre is within the margins. *)
Lemma clear_in_arena (self : Env) :
  check_collision self = false -> in_arena self.
Proof.
  unfold check_collision, in_arena. intro H.
  destruct (RBool.ltb (car_x self) (IZR (car_size / 2))) eqn:E1;
    [discriminate H |].
  destruct (RBool.gtb (car_x self) (IZR (width - car_size / 2))) eqn:E2;
    [discriminate H |].
  destruct (RBool.ltb (car_y self) (IZR (car_size / 2))) eqn:E3;
    [discriminate H |].
  destruct (RBool.gtb (car_y self) (IZR (height - car_size / 2))) eqn:E4;
    [discriminate H |].
  apply ltb_false in E1, E3. apply gtb_false in E2, E4.
  change (IZR (car_size / 2)) with 15 in E1, E3.
  change (IZR (width - car_size / 2)) with 785 in E2.
  change (IZR (height - car_size / 2)) with 585 in E4.
  lra.
Qed.

Lemma step_in_arena (self : Env) (action : Z) :
  in_arena self -> in_arena (after (step_body self action)).
Proof.
  intro Hin.
  destruct (step_position self action) as [Hx Hy].
  destruct (collision (step_body self action)) eqn:Hc.
  - unfold in_arena. rewrite Hx, Hy. exact Hin.
  - rewrite step_collision in Hc. apply clear_in_arena in Hc.
    unfold in_arena in *. rewrite Hx, Hy. exact Hc.
Qed.

(** X2.  In every state of a run the centre of the car is at least half a
    car away from each edge of the arena: [15 <= x <= 785] and
    [15 <= y <= 585]. *)
Theorem reachable_in_arena (self : Env) :
  reachable self -> in_arena self.
Proof.
  induction 1 as [draws u _ _ _ | self u _ _ _ | self action _ IH _].
  - unfold in_arena, init, reset. cbn [fst car_x car_y].
    change (IZR (width / 2)) with 400. change (IZR (height / 2)) with 300.
    lra.
  - unfold in_arena, reset. cbn [fst car_x car_y].
    change (IZR (width / 2)) with 400. change (IZR (height / 2)) with 300.
    lra.
  - apply step_in_arena. exact IH.
Qed.

Lemma scenario_step_reachable :
  reachable (after (step_body (init Scenario.draws 0) 0)).
Proof.
  apply reach_step.
  - exact scenario_init_reachable.
  - unfold valid_action. lia.
Qed.

Lemma reachable_in_arena_witness :
  in_arena (after (step_body (init Scenario.draws 0) 0)).
Proof.
  apply (reachable_in_arena _ scenario_step_reachable).
Defined.

(** ** Steps that do not collide *)

Lemma valid_action_velocity_max (self : Env) (action : Z) :
  (1 <= car_speed self <= 5)%Z -> valid_action action ->
  car_velocity (apply_action self action) <= 10.
Proof.
  intros [Hlo Hhi] [H0 H7]. unfold apply_action.
  destruct (Z.eqb_spec action 0) as [E | N0].
  { cbn [car_velocity set_car_velocity]. rewrite mult_IZR.
    apply IZR_le in Hhi. lra. }
  destruct (Z.eqb_spec action 1) as [E | N1].
  { cbn [car_velocity set_car_velocity car_speed set_car_angle].
    apply IZR_le in Hhi. lra. }
  destruct (Z.eqb_spec action 2) as [E | N2].
  { cbn [car_velocity set_car_velocity car_speed set_car_angle].
    apply IZR_le in Hhi. lra. }
  destruct (Z.geb_spec action 3) as [G | G]; [| lia].
  destruct (Z.leb_spec action 7) as [L | L]; [| lia].
  cbn [andb car_velocity set_car_velocity car_speed set_car_speed].
  assert (H1 : (1 * (action - 2) <= 5)%Z) by lia.
  apply IZR_le in H1. lra.
Qed.




(** ** Sensor readings *)

Lemma fold_left_Rmin_bounds (lo hi : R) (rest : list R) :
  forall acc,
    lo <= acc <= hi ->
    Forall (fun c => lo <= c <= hi) rest ->
    lo <= fold_left Rmin rest acc <= hi.
Proof.
  induction rest as [| x rest IH]; intros acc Hacc Hall; simpl.
  - exact Hacc.
  - inversion Hall as [| y ys Hx Hrest]; subst.
    apply IH; [| exact Hrest].
    unfold Rmin. destruct (Rle_dec acc x); assumption.
Qed.

Lemma min_list_bounds (lo hi : R) (l : list R) :
  l <> [] ->
  Forall (fun c => lo <= c <= hi) l ->
  lo <= min_list l <= hi.
Proof.
  destruct l as [| x rest]; intros Hne Hall; [contradiction |].
  inversion Hall as [| y ys Hx Hrest]; subst.
  simpl. apply fold_left_Rmin_bounds; assumption.
Qed.

Lemma get_distances_readings (self : Env) :
  Forall (fun c => exists k, (1 <= k <= 200)%Z /\ c = IZR k / 200)
         (get_distances self).
Proof.
  unfold get_distances. apply Forall_forall. intros c Hc.
  apply in_map_iff in Hc. destruct Hc as (offset & <- & _).
  destruct (cast_ray_bounds self (car_angle self + offset)) as [Hlo Hhi].
  unfold sensor_range in Hhi.
  exists (Z.min (cast_ray self (car_angle self + offset)) 200).
  split; [lia | reflexivity].
Qed.

Lemma min_distance_bounds (self : Env) :
  1 / 200 <= min_list (get_distances self) <= 1.
Proof.
  apply min_list_bounds.
  - discriminate.
  - eapply Forall_impl; [| apply get_distances_readings].
    intros c (k & [Hlo Hhi] & ->). apply IZR_le in Hlo, Hhi. lra.
Qed.

(** X6.  Each of the three sensor readings is [k / 200] for a whole number
    [k] of 1..200: a reading is never 0, however close the obstacle, and
    the least of the three is between 0.005 and 1. *)
Theorem sensor_readings_grid (self : Env) :
  List.length (get_distances self) = 3%nat
  /\ Forall (fun c => exists k, (1 <= k <= 200)%Z /\ c = IZR k / 200)
            (get_distances self)
  /\ 1 / 200 <= min_list (get_distances self) <= 1.
Proof.
  split; [reflexivity |].
  split; [apply get_distances_readings | apply min_distance_bounds].
Qed.

(** ** Bounds on the reward *)




(** ** More obstacles, shorter rays *)

Lemma ray_hit_mono (a b : Env) (angle : R) (dist : Z) :
  car_x a = car_x b -> car_y a = car_y b ->
  incl (obstacles a) (obstacles b) ->
  ray_hit a angle dist = true -> ray_hit b angle dist = true.
Proof.
  intros Hx Hy Hincl. unfold ray_hit. rewrite Hx, Hy.
  destruct (RBool.ltb _ 0 || RBool.gtb _ (IZR width)
            || RBool.ltb _ 0 || RBool.gtb _ (IZR height)); [trivial |].
  rewrite !existsb_exists. intros (o & Hin & Hhit).
  exists o. split; [apply Hincl; exact Hin | exact Hhit].
Qed.

(** X5.  Adding obstacles never lengthens a ray: from the same position,
    [cast_ray] over a larger set of obstacles returns at most what it
    returns over the smaller set. *)
Theorem cast_ray_antitone (a b : Env) (angle : R) :
  car_x a = car_x b -> car_y a = car_y b ->
  incl (obstacles a) (obstacles b) ->
  (cast_ray b angle <= cast_ray a angle)%Z.
Proof.
  intros Hx Hy Hincl.
  destruct (cast_ray_cases a angle) as [[Ha _] | (Ha & Hhit_a & _)].
  - rewrite Ha. apply cast_ray_bounds.
  - destruct (cast_ray_cases b angle) as [[Hb Hnone] | (Hb & _ & Hbefore)].
    + apply (ray_hit_mono a b angle _ Hx Hy Hincl) in Hhit_a.
      rewrite (Hnone _ Ha) in Hhit_a. discriminate Hhit_a.
    + destruct (Z.le_gt_cases (cast_ray b angle) (cast_ray a angle))
        as [Hle | Hgt]; [exact Hle |].
      apply (ray_hit_mono a b angle _ Hx Hy Hincl) in Hhit_a.
      rewrite Hbefore in Hhit_a by lia. discriminate Hhit_a.
Qed.

Lemma cast_ray_antitone_witness :
  (cast_ray (init Scenario.draws 0) 0 <= cast_ray (Scenario.open_arena 3) 0)%Z.
Proof.
  apply (cast_ray_antitone (Scenario.open_arena 3) (init Scenario.draws 0) 0).
  - reflexivity.
  - reflexivity.
  - intros o Ho. simpl. simpl in Ho. tauto.
Defined.

(** ** The obstacles of a run *)

Lemma border_walls_in_arena : Forall rect_in_arena border_walls.
Proof.
  unfold border_walls.
  repeat (constructor;
          [unfold rect_in_arena, width, height; cbn [left top w h]; lia |]).
  constructor.
Qed.

Lemma random_obstacle_in_arena (draw : Z * Z * Z * Z) :
  draw_in_range draw -> rect_in_arena (random_obstacle draw).
Proof.
  destruct draw as [[[x y] ww] hh].
  unfold draw_in_range, rect_in_arena, random_obstacle, width, height.
  cbn [left top w h]. lia.
Qed.

Lemma generate_obstacles_layout (draws : list (Z * Z * Z * Z)) :
  List.length draws = 8%nat -> Forall draw_in_range draws ->
  generate_obstacles draws = border_walls ++ map random_obstacle draws
  /\ List.length (generate_obstacles draws) = 12%nat
  /\ Forall rect_in_arena (generate_obstacles draws).
Proof.
  intros Hlen Hall. unfold generate_obstacles.
  assert (Hfirst : firstn 8 draws = draws)
    by (apply firstn_all2; rewrite Hlen; apply le_n).
  rewrite Hfirst. split; [reflexivity |]. split.
  - rewrite length_app, length_map, Hlen. reflexivity.
  - apply Forall_app. split; [exact border_walls_in_arena |].
    apply Forall_map. eapply Forall_impl; [| exact Hall].
    exact random_obstacle_in_arena.
Qed.

(** X7.  In every state of a run the obstacles are those generated at
    construction: the four border walls first, then the eight rectangles
    drawn, twelve in all, each of positive size and within the arena.
    [reset] and [step] never change them. *)
Theorem reachable_obstacle_layout (self : Env) :
  reachable self ->
  exists draws,
    List.length draws = 8%nat
    /\ Forall draw_in_range draws
    /\ obstacles self = border_walls ++ map random_obstacle draws
    /\ List.length (obstacles self) = 12%nat
    /\ Forall rect_in_arena (obstacles self).
Proof.
  induction 1 as [draws u Hlen Hall _ | self u _ IH _ | self action _ IH _].
  - exists draws.
    destruct (generate_obstacles_layout draws Hlen Hall) as (He & Hn & Hin).
    rewrite init_obstacles.
    split; [exact Hlen |]. split; [exact Hall |].
    split; [exact He |]. split; [exact Hn | exact Hin].
  - exact IH.
  - rewrite step_obstacles. exact IH.
Qed.

Lemma reachable_obstacle_layout_witness :
  List.length (obstacles (after (step_body (init Scenario.draws 0) 0))) = 12%nat.
Proof.
  destruct (reachable_obstacle_layout _ scenario_step_reachable)
    as (draws & _ & _ & _ & Hn & _).
  exact Hn.
Defined.

(** ** The counters of an episode *)

Lemma step_distance_nonneg (self : Env) (action : Z) :
  0 <= distance_moved (step_body self action).
Proof. rewrite step_distance_moved. apply sqrt_pos. Qed.



(** ** An episode ends *)

Import Training.

Lemma episode_loop_terminates (fuel : nat) (act : nat -> list R -> Z) :
  forall (i : nat) (env : Env) (state : list R) (total : R),
    (steps env <= 1000)%Z ->
    (1001 - steps env <= Z.of_nat fuel)%Z ->
    exists env' total' n,
      episode_loop fuel act i env state total = Some (env', total', n)
      /\ (i < n)%nat
      /\ steps env' = (steps env + Z.of_nat (n - i))%Z
      /\ (steps env' <= 1001)%Z.
Proof.
  induction fuel as [| fuel IH]; intros i env state total Hle Hfuel.
  - lia.
  - cbn [episode_loop]. rewrite step_returns.
    set (l := step_body env (act i state)).
    assert (Hn : steps (after l) = (steps env + 1)%Z) by apply step_steps.
    destruct (done l) eqn:Hdone.
    + exists (after l), (total + reward l), (S i).
      split; [reflexivity |]. split; [lia |].
      split; [rewrite Hn; lia | lia].
    + assert (Hsmall : (steps (after l) <= 1000)%Z).
      { unfold l in Hdone. rewrite step_done in Hdone.
        apply orb_false_iff in Hdone. destruct Hdone as [Hdone _].
        apply orb_false_iff in Hdone. destruct Hdone as [_ Hgt].
        fold l in Hgt. rewrite Z.gtb_ltb in Hgt.
        apply Z.ltb_ge in Hgt. exact Hgt. }
      destruct (IH (S i) (after l) (CarSimulatorEnv.get_state (after l))
                   (total + reward l) Hsmall ltac:(lia))
        as (env' & total' & n & Hrun & Hi & Hsteps & Hmax).
      exists env', total', n.
      split; [exact Hrun |]. split; [lia |].
      split; [rewrite Hsteps, Hn; lia | exact Hmax].
Qed.

(** X8.  An episode always ends: whatever the agent chooses, from [reset]
    the loop [while not done] of [train_agent] comes to [done] after at most
    1001 calls of [step], and the step count of the environment is then the
    number of calls made. *)
Theorem episode_terminates (act : nat -> list R -> Z) (env : Env) (u : R) :
  exists env' total n,
    episode 1001 act env u = Some (env', total, n)
    /\ (1 <= n <= 1001)%nat
    /\ steps env' = Z.of_nat n.
Proof.
  unfold episode.
  destruct (reset env u) as [env0 state0] eqn:Hreset.
  assert (H0 : steps env0 = 0%Z).
  { replace env0 with (fst (reset env u)) by (rewrite Hreset; reflexivity).
    reflexivity. }
  destruct (episode_loop_terminates 1001 act 0 env0 state0 0)
    as (env' & total' & n & Hrun & Hi & Hsteps & Hmax).
  - rewrite H0. lia.
  - rewrite H0. lia.
  - exists env', total', n. split; [exact Hrun |].
    rewrite H0 in Hsteps. split; lia.
Qed.

(** ** An obstacle on the starting position *)

Lemma int_of_float_bounds (r : R) (a b : Z) :
  IZR a <= r <= IZR b -> (a <= int_of_float r <= b)%Z.
Proof.
  intros [Ha Hb]. unfold int_of_float.
  destruct (Rle_dec 0 r) as [Hpos | Hneg].
  - split.
    + apply Zfloor_lub. exact Ha.
    + apply le_IZR. destruct (Zfloor_bound r) as [Hf _]. lra.
  - split.
    + apply le_IZR. destruct (Zceil_bound r) as [_ Hc]. lra.
    + destruct (Zceil_bound r) as [Hc _].
      assert (Hlt : IZR (Zceil r) < IZR (b + 1)) by (rewrite plus_IZR; lra).
      apply lt_IZR in Hlt. lia.
Qed.

Lemma colliderect_overlap (A B : Rect) :
  (0 < w A)%Z -> (0 < h A)%Z -> (0 < w B)%Z -> (0 < h B)%Z ->
  (left A < left B + w B)%Z -> (top A < top B + h B)%Z ->
  (left B < left A + w A)%Z -> (top B < top A + h A)%Z ->
  colliderect A B = true.
Proof.
  intros HwA HhA HwB HhB H1 H2 H3 H4. unfold colliderect.
  destruct (Z.eqb_spec (w A) 0) as [E | _]; [lia |].
  destruct (Z.eqb_spec (h A) 0) as [E | _]; [lia |].
  destruct (Z.eqb_spec (w B) 0) as [E | _]; [lia |].
  destruct (Z.eqb_spec (h B) 0) as [E | _]; [lia |].
  cbn [orb]. rewrite !andb_true_iff, !Z.gtb_ltb, !Z.ltb_lt. lia.
Qed.

Lemma attempted_position (self : Env) (action : Z) :
  car_x (attempted self action) =
    car_x self + car_velocity (apply_action self action)
                 * cos (car_angle (apply_action self action))
  /\ car_y (attempted self action) =
    car_y self + car_velocity (apply_action self action)
                 * sin (car_angle (apply_action self action)).
Proof.
  unfold attempted, update_position. cbn [car_x car_y set_position].
  rewrite apply_action_set_steps.
  cbn [car_x car_y car_velocity car_angle set_steps].
  rewrite apply_action_car_x, apply_action_car_y.
  split; reflexivity.
Qed.

(** With an obstacle on the centre, a car at the centre collides whatever
    valid action it takes. *)
Lemma blocked_step (self : Env) (action : Z) (o : Rect) :
  In o (obstacles self) -> covers_centre o ->
  car_x self = 400 -> car_y self = 300 ->
  (1 <= car_speed self <= 5)%Z -> valid_action action ->
  collision (step_body self action) = true.
Proof.
  intros Hin (Hw & Hh & Hl & Hr & Ht & Hb) Hx Hy Hs Hv.
  rewrite step_collision. unfold check_collision.
  destruct (_ || _ || _ || _); [reflexivity |].
  apply existsb_exists. exists o. split.
  { rewrite attempted_obstacles. exact Hin. }
  destruct (attempted_position self action) as [Px Py].
  rewrite Px, Py, Hx, Hy.
  assert (Hlo := valid_action_velocity self action Hs Hv).
  assert (Hhi := valid_action_velocity_max self action Hs Hv).
  set (v := car_velocity (apply_action self action)) in *.
  set (a := car_angle (apply_action self action)).
  assert (Hcos := COS_bound a). assert (Hsin := SIN_bound a).
  change (IZR (car_size / 2)) with 15.
  assert (Bx : (375 <= int_of_float (400 + v * cos a - 15) <= 395)%Z)
    by (apply int_of_float_bounds; nra).
  assert (By : (275 <= int_of_float (300 + v * sin a - 15) <= 295)%Z)
    by (apply int_of_float_bounds; nra).
  apply colliderect_overlap; unfold Rect_of_floats, car_size;
    cbn [left top w h]; lia.
Qed.

(** X10.  [reset] puts the car at the centre without looking at the
    obstacles.  When an obstacle overlaps the square of side 10 around the
    centre, every step with a valid action collides: the car never leaves
    the centre, its total distance stays 0, and each step adds one to the
    low-motion counter. *)
Theorem blocked_start (self : Env) (u : R) (o : Rect) (actions : list Z) :
  In o (obstacles self) -> covers_centre o ->
  Forall valid_action actions ->
  let start := fst (reset self u) in
  let final := run_actions actions start in
  (forall action, valid_action action ->
                  collision (step_body start action) = true)
  /\ car_x final = 400 /\ car_y final = 300
  /\ total_distance final = 0
  /\ stationary_steps final = Z.of_nat (List.length actions)
  /\ steps final = Z.of_nat (List.length actions).
Proof.
  intros Hin Hcov Hall start final.
  assert (Hstart : In o (obstacles start) /\ car_x start = 400
                   /\ car_y start = 300 /\ (1 <= car_speed start <= 5)%Z).
  { unfold start, reset. cbn [fst obstacles car_x car_y car_speed].
    split; [exact Hin |].
    change (IZR (width / 2)) with 400. change (IZR (height / 2)) with 300.
    split; [reflexivity |]. split; [reflexivity | lia]. }
  split.
  { intros action Hv. destruct Hstart as (Ho & Hx & Hy & Hs).
    apply (blocked_step start action o); assumption. }
  assert (G : forall acts s,
             Forall valid_action acts ->
             In o (obstacles s) -> car_x s = 400 -> car_y s = 300 ->
             (1 <= car_speed s <= 5)%Z ->
             car_x (run_actions acts s) = 400
             /\ car_y (run_actions acts s) = 300
             /\ total_distance (run_actions acts s) = total_distance s
             /\ stationary_steps (run_actions acts s) =
                  (stationary_steps s + Z.of_nat (List.length acts))%Z
             /\ steps (run_actions acts s) =
                  (steps s + Z.of_nat (List.length acts))%Z).
  { induction acts as [| action rest IH]; intros s Hv Ho Hx Hy Hs.
    - cbn [run_actions List.length Z.of_nat].
      repeat split; try assumption; lia.
    - inversion Hv as [| a0 r0 Hva Hvr]; subst.
      assert (Hc := blocked_step s action o Ho Hcov Hx Hy Hs Hva).
      assert (Hd := collision_distance_zero s action Hc).
      destruct (step_position s action) as [Px Py]. rewrite Hc in Px, Py.
      cbn [run_actions].
      destruct (IH (after (step_body s action)) Hvr) as (Fx & Fy & Ft & Fs & Fn).
      + rewrite step_obstacles. exact Ho.
      + rewrite Px. exact Hx.
      + rewrite Py. exact Hy.
      + rewrite step_car_speed. apply apply_action_speed_range. exact Hs.
      + rewrite Fx, Fy, Ft, Fs, Fn.
        rewrite step_total_distance, step_stationary_steps, step_steps, Hd.
        assert (Hlt : RBool.ltb 0 0.5 = true) by (apply ltb_true; lra).
        rewrite Hlt. cbn [List.length].
        repeat split; try reflexivity; try lra; lia. }
  destruct Hstart as (Ho & Hx & Hy & Hs).
  destruct (G actions start Hall Ho Hx Hy Hs) as (Fx & Fy & Ft & Fs & Fn).
  unfold final. rewrite Fx, Fy, Ft, Fs, Fn.
  repeat split; reflexivity.
Qed.

Lemma blocked_start_witness :
  reachable (init Scenario.blocking_draws 0)
  /\ car_x (run_actions [0; 1; 7]%Z
              (fst (reset (init Scenario.blocking_draws 0) (1 / 2)))) = 400
  /\ collision (step_body (fst (reset (init Scenario.blocking_draws 0) (1 / 2)))
                          0) = true.
Proof.
  assert (Hin : In (mkRect 380 280 40 40)
                   (obstacles (init Scenario.blocking_draws 0)))
    by (simpl; tauto).
  assert (Hcov : covers_centre (mkRect 380 280 40 40))
    by (unfold covers_centre; cbn [left top w h]; lia).
  assert (Hval : Forall valid_action [0; 1; 7]%Z)
    by (repeat constructor; unfold valid_action; lia).
  split.
  { apply reach_init.
    - reflexivity.
    - unfold Scenario.blocking_draws.
      repeat (constructor; [unfold draw_in_range, width, height; lia |]).
      constructor.
    - lra. }
  destruct (blocked_start (init Scenario.blocking_draws 0) (1 / 2)
              (mkRect 380 280 40 40) [0; 1; 7]%Z Hin Hcov Hval)
    as (Hall & Hx & _).
  split; [exact Hx |].
  apply Hall. unfold valid_action. lia.
Defined.

(** * The deployment side *)

(** ** The action table *)

(** What [send_command] can do to the speed level and to the connection:
    the speed level changes only to the value of a speed command that was
    written to a connected port, and a call never connects. *)
Lemma send_command_effect (write_ok : bool) (link : Link) (speed : Z)
    (command : string) :
  let result := send_command write_ok link speed command in
  (snd (fst result) = speed
   \/ (int command = Returned (snd (fst result))
       /\ connected link = true /\ serial_port link = true
       /\ write_ok = true))
  /\ (connected (fst (fst result)) = true -> connected link = true).
Proof.
  unfold send_command.
  destruct (connected link) eqn:Hc; destruct (serial_port link) eqn:Hp;
    cbn [andb]; try (cbn [fst snd]; split; [left; reflexivity | exact (fun H => H)]);
    try (cbn [fst snd]; rewrite Hc; split; [left; reflexivity | exact (fun H => H)]).
  destruct write_ok.
  - destruct (is_speed_command command).
    + destruct (int command) as [v |] eqn:Hi; cbn [fst snd].
      * split; [right; repeat split; reflexivity | reflexivity].
      * split; [left; reflexivity | reflexivity].
    + cbn [fst snd]. split; [left; reflexivity | reflexivity].
  - cbn [fst snd]. split; [left; reflexivity | reflexivity].
Qed.

(** The commands of the table for the nine actions, and the speed levels
    the speed commands stand for. *)
Lemma action_map_table (action : Z) :
  (0 <= action <= 8)%Z ->
  exists command,
    dict_get action_map action = Returned command
    /\ forall v, int command = Returned v -> (1 <= v <= 5)%Z.
Proof.
  intro H.
  assert (E : action = 0%Z \/ action = 1%Z \/ action = 2%Z \/ action = 3%Z
              \/ action = 4%Z \/ action = 5%Z \/ action = 6%Z
              \/ action = 7%Z \/ action = 8%Z) by lia.
  destruct E as [-> | [-> | [-> | [-> | [-> | [-> | [-> | [-> | ->]]]]]]]];
    eexists; (split; [reflexivity |]); intros v Hv; vm_compute in Hv;
    try discriminate Hv; injection Hv as <-; lia.
Qed.

(** A pass of the control loop for one of the nine actions. *)
Lemma run_ai_control_pass_table (write_ok : bool) (link : Link)
    (speed action : Z) :
  (0 <= action <= 8)%Z ->
  exists command link' speed',
    run_ai_control_pass write_ok link speed action =
      Returned (command, link', speed')
    /\ (speed' = speed
        \/ ((1 <= speed' <= 5)%Z
            /\ connected link = true /\ serial_port link = true
            /\ write_ok = true))
    /\ (connected link' = true -> connected link = true).
Proof.
  intro H. destruct (action_map_table action H) as (command & Hget & Hval).
  unfold run_ai_control_pass. rewrite Hget.
  destruct (send_command_effect write_ok link speed command) as [Hs Hc].
  cbv zeta in Hs, Hc.
  destruct (send_command write_ok link speed command) as [[link' speed'] ok].
  cbn [fst snd] in Hs, Hc.
  exists command, link', speed'. split; [reflexivity |].
  split; [| exact Hc].
  destruct Hs as [Hs | (Hi & Hconn & Hport & Hw)].
  - left. exact Hs.
  - right. split; [apply Hval; exact Hi |]. repeat split; assumption.
Qed.

(** X11.  The deployment table has a command for exactly the action indices
    0..8.  For these a pass of the control loop returns, whether the port is
    connected or not and whether the write succeeds or fails; a speed level
    in 1..5 stays in 1..5, and it changes only when the command was written
    to a connected port.  For any other index the lookup raises [KeyError],
    before anything is sent. *)
Theorem deployment_round_keys (write_ok : bool) (link : Link)
    (speed action : Z) :
  ((0 <= action <= 8)%Z ->
   exists command link' speed',
     run_ai_control_pass write_ok link speed action =
       Returned (command, link', speed')
     /\ ((1 <= speed <= 5)%Z -> (1 <= speed' <= 5)%Z)
     /\ (speed' <> speed ->
         connected link = true /\ serial_port link = true /\ write_ok = true)
     /\ (connected link' = true -> connected link = true))
  /\ (~ (0 <= action <= 8)%Z ->
      run_ai_control_pass write_ok link speed action =
        Raised "KeyError"%string).
Proof.
  split.
  - intro H.
    destruct (run_ai_control_pass_table write_ok link speed action H)
      as (command & link' & speed' & Hr & Hs & Hc).
    exists command, link', speed'. split; [exact Hr |].
    split; [| split; [| exact Hc]].
    + intro Hrange. destruct Hs as [-> | [Hs _]]; assumption.
    + intro Hne. destruct Hs as [Hs | [_ Hs]]; [contradiction | exact Hs].
  - intro H. unfold run_ai_control_pass, action_map. cbn [dict_get].
    repeat match goal with
           | |- context [(?k =? action)%Z] =>
               destruct (Z.eqb_spec k action); [lia |]
           end.
    reflexivity.
Qed.

Lemma deployment_round_keys_witness :
  (exists command link' speed',
      run_ai_control_pass false open_link 3 8 =
        Returned (command, link', speed')
      /\ (1 <= speed' <= 5)%Z)
  /\ run_ai_control_pass true open_link 3 9 = Raised "KeyError"%string.
Proof.
  destruct (deployment_round_keys false open_link 3 8) as [Hin _].
  destruct (deployment_round_keys true open_link 3 9) as [_ Hout].
  split.
  - destruct (Hin ltac:(lia)) as (command & link' & speed' & Hr & Hs & _).
    exists command, link', speed'. split; [exact Hr | apply Hs; lia].
  - apply Hout. lia.
Defined.

(** ** The state vector of the controller *)

Lemma int_of_digits_nonneg (s : string) :
  forall acc v, (0 <= acc)%Z -> int_of_digits acc s = Returned v -> (0 <= v)%Z.
Proof.
  induction s as [| c rest IH]; intros acc v Hacc H;
    cbn [int_of_digits] in H.
  - injection H as <-. exact Hacc.
  - destruct ((48 <=? nat_of_ascii c)%nat && (nat_of_ascii c <=? 57)%nat)
      eqn:Hd; [| discriminate H].
    apply andb_true_iff in Hd. destruct Hd as [Hlo _].
    apply Nat.leb_le in Hlo.
    apply (IH _ v) in H; [exact H | lia].
Qed.

Lemma int_nonneg (s : string) (v : Z) : int s = Returned v -> (0 <= v)%Z.
Proof.
  unfold int. destruct s as [| c rest]; [intro H; discriminate H |].
  destruct (4300 <? _)%Z; [intro H; discriminate H |].
  apply int_of_digits_nonneg. lia.
Qed.

Lemma set_distance_ok (self : Controller) (position : ascii) (d : Z) :
  controller_ok self -> (0 <= d)%Z ->
  controller_ok (set_distance self position d).
Proof.
  unfold controller_ok, set_distance. intros (HL & HC & HR & Hs) Hd.
  destruct (Ascii.eqb position "L"); [cbn; lia |].
  destruct (Ascii.eqb position "C"); cbn; lia.
Qed.

Lemma read_serial_data_ok (self : Controller) (line : string) :
  controller_ok self -> controller_ok (read_serial_data self line).
Proof.
  intro Hok. unfold read_serial_data.
  destruct (match_DIST line) as [[[position angle] distance] |]; [| exact Hok].
  destruct (int angle) as [a |]; [| exact Hok].
  destruct (int distance) as [d |] eqn:Hd; [| exact Hok].
  apply set_distance_ok; [exact Hok |].
  apply (int_nonneg distance). exact Hd.
Qed.

Lemma controller_state_in_range (self : Controller) :
  controller_ok self ->
  List.length (ArduinoAIController.get_state self) = 4%nat
  /\ Forall in_unit_interval (ArduinoAIController.get_state self).
Proof.
  intros (HL & HC & HR & Hlo & Hhi). split; [reflexivity |].
  unfold ArduinoAIController.get_state, in_unit_interval.
  assert (B : forall d, (0 <= d)%Z -> 0 <= IZR (Z.min d 200) / 200 <= 1).
  { intros d Hd.
    assert (H0 : (0 <= Z.min d 200)%Z) by lia.
    assert (H1 : (Z.min d 200 <= 200)%Z) by lia.
    apply IZR_le in H0, H1. lra. }
  apply IZR_le in Hlo, Hhi.
  constructor; [apply B; exact HL |].
  constructor; [apply B; exact HC |].
  constructor; [apply B; exact HR |].
  constructor; [cbv beta; lra | constructor].
Qed.

(** X12.  Whatever lines (of characters with code points 0..255, all ASCII
    lines among them) arrive on the serial port and whatever actions of
    0..8 the agent chooses, in whatever order, whether the port is connected
    or not and whether each write succeeds or fails, the controller never
    raises, its distances stay at 0 or above and its speed level in 1..5,
    and the state vector it hands to the agent has four components in
    [0, 1]. *)
Theorem deployment_state_in_range (events : list event)
    (self : Controller * Link) :
  controller_ok (fst self) ->
  Forall event_ok events ->
  exists self',
    run_events events self = Returned self'
    /\ controller_ok (fst self')
    /\ List.length (ArduinoAIController.get_state (fst self')) = 4%nat
    /\ Forall in_unit_interval (ArduinoAIController.get_state (fst self')).
Proof.
  revert self. induction events as [| e rest IH]; intros [fields link] Hok Hall.
  - exists (fields, link). split; [reflexivity |]. split; [exact Hok |].
    apply controller_state_in_range. exact Hok.
  - inversion Hall as [| e0 r0 He Hrest]; subst.
    cbn [run_events fst] in *.
    destruct e as [line | write_ok action]; cbn [handle].
    + destruct (connected link).
      * apply IH; [| exact Hrest]. cbn [fst].
        apply read_serial_data_ok. exact Hok.
      * apply IH; [exact Hok | exact Hrest].
    + cbn [event_ok] in He.
      destruct (run_ai_control_pass_table write_ok link
                  (current_speed fields) action He)
        as (command & link' & speed' & Hr & Hs & _).
      rewrite Hr. apply IH; [| exact Hrest].
      destruct Hok as (HL & HC & HR & Hsp).
      unfold controller_ok.
      cbn [fst distances_L distances_C distances_R current_speed].
      destruct Hs as [-> | [Hs _]]; lia.
Qed.

Lemma deployment_state_in_range_witness :
  exists self',
    run_events [Line "DIST:L30:25"; Action true 8; Line "READY";
                Action false 3; Line "DIST:C90:7"; Action true 4]
               (init_controller, open_link) = Returned self'
    /\ Forall in_unit_interval (ArduinoAIController.get_state (fst self')).
Proof.
  destruct (deployment_state_in_range
              [Line "DIST:L30:25"; Action true 8; Line "READY";
               Action false 3; Line "DIST:C90:7"; Action true 4]
              (init_controller, open_link)) as (self' & Hrun & _ & _ & Hall).
  - unfold controller_ok, init_controller. cbn. lia.
  - repeat constructor; cbn; lia.
  - exists self'. split; [exact Hrun | exact Hall].
Defined.

(** X13.  The simulator and the controller build the state vector the same
    way: the state of the environment is the state the controller computes
    from the three ray distances and the speed level. *)
Theorem observation_parity (self : Env) :
  CarSimulatorEnv.get_state self =
    ArduinoAIController.get_state
      (mkController (cast_ray self (car_angle self + - PI / 3))
                    (cast_ray self (car_angle self + 0))
                    (cast_ray self (car_angle self + PI / 3))
                    (car_speed self)).
Proof. reflexivity. Qed.

(** ** Lines of the serial port *)

Lemma span_digits_app (digits tail : string) :
  all_digits digits = true -> starts_with_digit tail = false ->
  span_digits (digits ++ tail)%string = (digits, tail).
Proof.
  intros Hd Ht. induction digits as [| c rest IH].
  - cbn [append]. destruct tail as [| t tail']; [reflexivity |].
    cbn [starts_with_digit] in Ht. cbn [span_digits]. rewrite Ht. reflexivity.
  - cbn [all_digits] in Hd. apply andb_true_iff in Hd. destruct Hd as [Hc Hr].
    cbn [append span_digits]. rewrite Hc, (IH Hr). reflexivity.
Qed.

Lemma int_of_digits_total (s : string) :
  all_digits s = true -> forall acc, exists v, int_of_digits acc s = Returned v.
Proof.
  induction s as [| c rest IH]; intros Hd acc.
  - exists acc. reflexivity.
  - cbn [all_digits] in Hd. apply andb_true_iff in Hd. destruct Hd as [Hc Hr].
    cbn [int_of_digits]. unfold is_digit in Hc. rewrite Hc. apply IH. exact Hr.
Qed.

Lemma int_total (s : string) :
  s <> EmptyString -> all_digits s = true ->
  (String.length s <= 4300)%nat ->
  exists v, int s = Returned v.
Proof.
  intros Hne Hd Hlen. unfold int. destruct s as [| c rest]; [contradiction |].
  destruct (Z.ltb_spec 4300 (Z.of_nat (String.length (String c rest))))
    as [Hbig | _].
  - apply Nat2Z.inj_le in Hlen. change (Z.of_nat 4300) with 4300%Z in Hlen. lia.
  - apply int_of_digits_total. exact Hd.
Qed.

(** X14.  A line [DIST:<position><angle>:<distance>] followed by anything
    that does not begin with a digit, where [<position>] is one of [L], [C]
    and [R] and [<angle>] and [<distance>] are runs of one or more digits
    (at most 4300, the most that [int] converts in every version of
    Python), stores the value of [<distance>], which is 0 or more, under
    that position, and changes no other field. *)
Theorem read_serial_data_DIST
    (self : Controller) (position : ascii) (angle distance tail : string) :
  position = "L"%char \/ position = "C"%char \/ position = "R"%char ->
  angle <> EmptyString -> all_digits angle = true ->
  distance <> EmptyString -> all_digits distance = true ->
  (String.length angle <= 4300)%nat -> (String.length distance <= 4300)%nat ->
  starts_with_digit tail = false ->
  exists d,
    int distance = Returned d
    /\ (0 <= d)%Z
    /\ read_serial_data self
         ("DIST:" ++ String position (angle ++ ":" ++ distance ++ tail))%string
       = set_distance self position d.
Proof.
  intros Hp Ha Had Hd Hdd Hla Hld Ht.
  destruct (int_total angle Ha Had Hla) as [a Hia].
  destruct (int_total distance Hd Hdd Hld) as [d Hid].
  exists d. split; [exact Hid |]. split; [apply (int_nonneg distance); exact Hid |].
  unfold read_serial_data.
  assert (Hm : match_DIST
                 ("DIST:" ++ String position (angle ++ ":" ++ distance ++ tail))%string
               = Some (position, angle, distance)).
  { cbn [append match_DIST].
    assert (Hpos : Ascii.eqb position "L" || Ascii.eqb position "C"
                   || Ascii.eqb position "R" = true)
      by (destruct Hp as [-> | [-> | ->]]; reflexivity).
    rewrite Hpos.
    rewrite (span_digits_app angle (String ":" (distance ++ tail))%string Had)
      by reflexivity.
    destruct angle as [| a0 arest]; [contradiction |].
    rewrite (span_digits_app distance tail Hdd Ht).
    destruct distance as [| d0 drest]; [contradiction |].
    reflexivity. }
  rewrite Hm, Hia, Hid. reflexivity.
Qed.

Lemma read_serial_data_DIST_witness :
  read_serial_data init_controller "DIST:C90:50 cm" =
    mkController 100 50 100 3.
Proof.
  destruct (read_serial_data_DIST init_controller "C" "90" "50" " cm")
    as (d & Hd & _ & Hr).
  - right. left. reflexivity.
  - discriminate.
  - reflexivity.
  - discriminate.
  - reflexivity.
  - cbn [String.length]. lia.
  - cbn [String.length]. lia.
  - reflexivity.
  - cbn [append] in Hr. rewrite Hr.
    assert (E : d = 50%Z).
    { assert (H50 : int "50" = Returned 50%Z) by reflexivity.
      rewrite H50 in Hd. injection Hd as <-. reflexivity. }
    rewrite E. reflexivity.
Defined.

(** * Direct motor control *)

Import motor_controller.

(** ** MotorController *)

Lemma try_write_in_range (write_ok : bool) (self : MotorController.t)
    (data : string) :
  MotorController.in_range self ->
  MotorController.in_range (MotorController.try_write write_ok self data).
Proof. intro H. destruct write_ok; exact H. Qed.

Lemma do_call_in_range (self : MotorController.t) (c : MotorController.call) :
  MotorController.in_range self ->
  MotorController.in_range (MotorController.do_call self c).
Proof.
  intro H. pose proof H as (Hl & Hr & Hs).
  destruct c as [ok | write_ok l r | write_ok angle | write_ok | write_ok
                 | write_ok]; cbn [MotorController.do_call].
  - destruct ok; exact H.
  - unfold MotorController.set_motors.
    destruct (MotorController.connected self); cbn [negb fst]; [| exact H].
    apply try_write_in_range. unfold MotorController.in_range.
    cbn [MotorController.left_speed MotorController.right_speed
         MotorController.servo_angle]. lia.
  - unfold MotorController.set_servo.
    destruct (MotorController.connected self); cbn [negb fst]; [| exact H].
    apply try_write_in_range. unfold MotorController.in_range.
    cbn [MotorController.left_speed MotorController.right_speed
         MotorController.servo_angle]. lia.
  - unfold MotorController.get_distance. cbn [fst].
    destruct (MotorController.connected self); [| exact H].
    apply try_write_in_range. exact H.
  - unfold MotorController.emergency_stop.
    destruct (MotorController.connected self); [| exact H].
    destruct write_ok; [| exact H].
    unfold MotorController.in_range.
    cbn [MotorController.left_speed MotorController.right_speed
         MotorController.servo_angle MotorController.try_write]. lia.
  - unfold MotorController.disconnect, MotorController.set_motors.
    cbn [MotorController.connected].
    destruct (MotorController.connected self) eqn:Hc; cbn [negb fst];
      [| exact H].
    destruct write_ok; unfold MotorController.in_range;
      cbn [MotorController.left_speed MotorController.right_speed
           MotorController.servo_angle MotorController.try_write]; lia.
Qed.

(** X15.  Whatever methods of [MotorController] are called, with whatever
    arguments, and whether the writes to the serial port succeed or not,
    the recorded motor speeds stay within -255..255 and the recorded servo
    angle within 0..180. *)
Theorem motor_controller_in_range
    (calls : list MotorController.call) (self : MotorController.t) :
  MotorController.in_range self ->
  MotorController.in_range (MotorController.do_calls calls self).
Proof.
  unfold MotorController.do_calls. revert self.
  induction calls as [| c rest IH]; intros self H.
  - exact H.
  - cbn [fold_left]. apply IH. apply do_call_in_range. exact H.
Qed.

Lemma motor_controller_in_range_witness :
  MotorController.in_range
    (MotorController.do_calls
       [MotorController.Connect true;
        MotorController.SetMotors true 1000 (-1000);
        MotorController.SetServo false 270;
        MotorController.SetMotors true 10 10]
       MotorController.init).
Proof.
  apply motor_controller_in_range.
  unfold MotorController.in_range, MotorController.init.
  cbn [MotorController.left_speed MotorController.right_speed
       MotorController.servo_angle]. lia.
Defined.

(** X16.  [disconnect] always leaves the controller disconnected and not
    running.  If it was connected, the motors are stopped first: the
    recorded speeds are 0 and, when the write succeeds, the stop command
    [L:0,R:0] is the last thing sent; when the write fails nothing is
    sent. *)
Theorem disconnect_stops_motors (write_ok : bool) (self : MotorController.t) :
  let self' := MotorController.disconnect write_ok self in
  MotorController.connected self' = false
  /\ MotorController.running self' = false
  /\ (MotorController.connected self = true ->
      MotorController.left_speed self' = 0%Z
      /\ MotorController.right_speed self' = 0%Z
      /\ MotorController.written self' =
           if write_ok
           then MotorController.written self ++ [("L:0,R:0" ++ newline)%string]
           else MotorController.written self)
  /\ (MotorController.connected self = false ->
      MotorController.left_speed self' = MotorController.left_speed self
      /\ MotorController.right_speed self' = MotorController.right_speed self
      /\ MotorController.written self' = MotorController.written self).
Proof.
  unfold MotorController.disconnect, MotorController.set_motors.
  cbn [MotorController.connected].
  destruct (MotorController.connected self) eqn:Hc; cbn [negb fst].
  - destruct write_ok; cbn;
      (split; [reflexivity |]); (split; [reflexivity |]);
      (split; [intros _; repeat split; reflexivity | intro H; discriminate H]).
  - cbn.
    split; [reflexivity |]. split; [reflexivity |].
    split; [intro H; discriminate H | intros _; repeat split; reflexivity].
Qed.

Lemma disconnect_stops_motors_witness :
  MotorController.written
    (MotorController.disconnect true
       (MotorController.mk true 200 200 90 0 true []))
  = [("L:0,R:0" ++ newline)%string].
Proof.
  destruct (disconnect_stops_motors true
              (MotorController.mk true 200 200 90 0 true []))
    as (_ & _ & H & _).
  destruct (H eq_refl) as (_ & _ & Hw). exact Hw.
Defined.

(** X17.  A write that fails in [set_motors] marks the controller
    disconnected, yet the speeds it could not send are recorded (clamped to
    -255..255); every later [set_motors] and [set_servo] is then refused:
    it returns [False], records nothing and sends nothing. *)
Theorem set_motors_failed_write
    (self : MotorController.t) (left_speed right_speed : Z) :
  MotorController.connected self = true ->
  let self' :=
    fst (MotorController.set_motors false self left_speed right_speed) in
  snd (MotorController.set_motors false self left_speed right_speed) = false
  /\ MotorController.connected self' = false
  /\ MotorController.left_speed self' = Z.max (-255) (Z.min 255 left_speed)
  /\ MotorController.right_speed self' = Z.max (-255) (Z.min 255 right_speed)
  /\ MotorController.written self' = MotorController.written self
  /\ (forall write_ok l r,
         MotorController.set_motors write_ok self' l r = (self', false))
  /\ (forall write_ok angle,
         MotorController.set_servo write_ok self' angle = (self', false)).
Proof.
  intro Hc. unfold MotorController.set_motors, MotorController.set_servo.
  rewrite Hc. cbn. repeat split; reflexivity.
Qed.

Lemma set_motors_failed_write_witness :
  MotorController.left_speed
    (fst (MotorController.set_motors false
            (MotorController.mk true 0 0 90 0 true []) 300 (-40))) = 255%Z.
Proof.
  destruct (set_motors_failed_write
              (MotorController.mk true 0 0 90 0 true []) 300 (-40) eq_refl)
    as (_ & _ & Hl & _).
  exact Hl.
Defined.

(** ** KeyboardController *)

Lemma mem_add (x k : ascii) (s : list ascii) :
  KeyboardController.mem x (KeyboardController.add k s) =
    Ascii.eqb x k || KeyboardController.mem x s.
Proof.
  unfold KeyboardController.add.
  destruct (KeyboardController.mem k s) eqn:Hk.
  - destruct (Ascii.eqb_spec x k) as [-> | _]; [| reflexivity].
    rewrite Hk. reflexivity.
  - reflexivity.
Qed.

Lemma mem_discard (x k : ascii) (s : list ascii) :
  KeyboardController.mem x (KeyboardController.discard k s) =
    negb (Ascii.eqb x k) && KeyboardController.mem x s.
Proof.
  unfold KeyboardController.mem, KeyboardController.discard.
  induction s as [| y s IH]; cbn [filter existsb].
  - rewrite andb_false_r. reflexivity.
  - destruct (Ascii.eqb_spec y k) as [-> | Hyk]; cbn [negb].
    + rewrite IH. destruct (Ascii.eqb_spec x k) as [-> | Hxk]; cbn [negb andb].
      * reflexivity.
      * cbn [orb]. reflexivity.
    + cbn [existsb]. rewrite IH.
      destruct (Ascii.eqb_spec x k) as [-> | Hxk]; cbn [negb andb].
      * destruct (Ascii.eqb_spec k y) as [E | _]; [congruence | reflexivity].
      * reflexivity.
Qed.

Lemma base_speed_204 :
  int_of_float (255 * KeyboardController.speed_multiplier) = 204%Z.
Proof.
  unfold KeyboardController.speed_multiplier.
  replace (255 * 0.8) with (IZR 204) by lra.
  apply int_of_float_IZR.
Qed.

(** The set after [update]: the old one, the old one with the key, or the
    empty one. *)
Lemma update_keys (self : KeyboardController.t) (key : option ascii) :
  let keys' := KeyboardController.keys_pressed
                 (fst (KeyboardController.update self key)) in
  keys' = []
  \/ keys' = KeyboardController.keys_pressed self
  \/ exists k, key = Some k /\ k <> KeyboardController.ESC
               /\ keys' = KeyboardController.add k
                            (KeyboardController.keys_pressed self).
Proof.
  unfold KeyboardController.update.
  destruct key as [k |].
  - destruct (Ascii.eqb_spec k KeyboardController.ESC) as [-> | Hne].
    + right. left. reflexivity.
    + cbn [KeyboardController.keys_pressed].
      destruct (5 <? _)%nat; cbn [fst KeyboardController.keys_pressed].
      * left. reflexivity.
      * right. right. exists k. repeat split. exact Hne.
  - destruct (5 <? _)%nat; cbn [fst KeyboardController.keys_pressed].
    + left. reflexivity.
    + right. left. reflexivity.
Qed.

Lemma update_servo_angle (self : KeyboardController.t) (key : option ascii) :
  KeyboardController.servo_angle (fst (KeyboardController.update self key)) =
    KeyboardController.servo_angle self.
Proof.
  unfold KeyboardController.update.
  destruct key as [k |].
  - destruct (Ascii.eqb k KeyboardController.ESC); [reflexivity |].
    destruct (5 <? _)%nat; reflexivity.
  - destruct (5 <? _)%nat; reflexivity.
Qed.

Ltac movement_keys :=
  repeat match goal with
         | |- context [KeyboardController.mem ?x (KeyboardController.discard ?k ?s)] =>
             rewrite (mem_discard x k s)
         | |- context [KeyboardController.mem ?x (KeyboardController.add ?k ?s)] =>
             rewrite (mem_add x k s)
         end.

(** The set that [get_motor_speeds] leaves: the set after [update], less
    the four movement keys. *)
Lemma get_motor_speeds_keys (self : KeyboardController.t) (key : option ascii) :
  KeyboardController.keys_pressed
    (fst (KeyboardController.get_motor_speeds self key)) =
  KeyboardController.discard "w"
    (KeyboardController.discard "a"
       (KeyboardController.discard "s"
          (KeyboardController.discard "d"
             (KeyboardController.keys_pressed
                (fst (KeyboardController.update self key)))))).
Proof.
  unfold KeyboardController.get_motor_speeds. cbv zeta.
  repeat match goal with
         | |- context [if ?b then _ else _] => destruct b
         end;
    reflexivity.
Qed.

Lemma get_motor_speeds_no_movement_key
    (self : KeyboardController.t) (key : option ascii) :
  KeyboardController.no_movement_key
    (fst (KeyboardController.get_motor_speeds self key)).
Proof.
  unfold KeyboardController.no_movement_key.
  rewrite get_motor_speeds_keys. movement_keys.
  repeat split; reflexivity.
Qed.

(** The speeds as a function of which movement keys are in the set after
    [update]. *)
Lemma get_motor_speeds_result (self : KeyboardController.t) (key : option ascii) :
  let keys := KeyboardController.keys_pressed
                (fst (KeyboardController.update self key)) in
  snd (KeyboardController.get_motor_speeds self key) =
    let '(left_speed, right_speed) :=
      if KeyboardController.mem "w" keys then (204, 204)%Z
      else if KeyboardController.mem "s" keys then (-204, -204)%Z
      else (0, 0)%Z in
    if KeyboardController.mem "a" keys then
      if (left_speed =? 0)%Z then (-102, 102)%Z
      else (int_of_float (IZR left_speed * 0.5), right_speed)
    else if KeyboardController.mem "d" keys then
      if (right_speed =? 0)%Z then (102, -102)%Z
      else (left_speed, int_of_float (IZR right_speed * 0.5))
    else (left_speed, right_speed).
Proof.
  unfold KeyboardController.get_motor_speeds. cbv zeta.
  rewrite base_speed_204.
  repeat match goal with
         | |- context [if KeyboardController.mem ?x ?s then _ else _] =>
             destruct (KeyboardController.mem x s)
         end;
    reflexivity.
Qed.

(** X18.  When no movement key is left in the set from before, which is so
    on every call that follows [__init__], [get_motor_speeds] sees at most
    the one key just read: it returns a stop, straight forward or backward
    at 204, or a pivot at 102, never a moving turn; it leaves no movement
    key in the set; and [set_motors] has nothing to clamp. *)
Theorem keyboard_single_key (self : KeyboardController.t) (key : option ascii) :
  KeyboardController.no_movement_key self ->
  let result := KeyboardController.get_motor_speeds self key in
  KeyboardController.no_movement_key (fst result)
  /\ (snd result = (0, 0) \/ snd result = (204, 204)
      \/ snd result = (-204, -204) \/ snd result = (-102, 102)
      \/ snd result = (102, -102))%Z
  /\ (Z.max (-255) (Z.min 255 (fst (snd result))) = fst (snd result)
      /\ Z.max (-255) (Z.min 255 (snd (snd result))) = snd (snd result)).
Proof.
  intros (Hw & Ha & Hs & Hd) result.
  assert (Hres : (snd result = (0, 0) \/ snd result = (204, 204)
                  \/ snd result = (-204, -204) \/ snd result = (-102, 102)
                  \/ snd result = (102, -102))%Z).
  { unfold result. rewrite get_motor_speeds_result. cbv zeta.
    destruct (update_keys self key) as [E | [E | (k & _ & _ & E)]];
      cbv zeta in E; rewrite E; clear E.
    - left. reflexivity.
    - rewrite Hw, Hs, Ha, Hd. left. reflexivity.
    - movement_keys. rewrite Hw, Ha, Hs, Hd, !orb_false_r.
      destruct (Ascii.eqb_spec "w" k) as [Ew | Nw];
        destruct (Ascii.eqb_spec "s" k) as [Es | Ns];
        destruct (Ascii.eqb_spec "a" k) as [Ea | Na];
        destruct (Ascii.eqb_spec "d" k) as [Ed | Nd];
        try congruence; cbv iota beta; cbn [Z.eqb]; tauto. }
  split; [apply get_motor_speeds_no_movement_key |]. split; [exact Hres |].
  destruct Hres as [-> | [-> | [-> | [-> | ->]]]]; cbn [fst snd]; lia.
Qed.

Lemma keyboard_init_no_movement_key :
  KeyboardController.no_movement_key KeyboardController.init.
Proof. repeat split. Qed.

Lemma keyboard_single_key_witness :
  snd (KeyboardController.get_motor_speeds KeyboardController.init (Some "a"%char))
  = (-102, 102)%Z.
Proof.
  destruct (keyboard_single_key KeyboardController.init (Some "a"%char)
              keyboard_init_no_movement_key) as (_ & Hres & _).
  assert (Hleft : fst (snd (KeyboardController.get_motor_speeds
                              KeyboardController.init (Some "a"%char)))
                  = (-102)%Z).
  { unfold KeyboardController.get_motor_speeds. rewrite base_speed_204.
    reflexivity. }
  destruct Hres as [E | [E | [E | [E | E]]]]; rewrite E in Hleft |- *;
    cbn [fst] in Hleft; try discriminate Hleft.
  reflexivity.
Defined.

(** *** The escape key *)

Lemma update_keeps_out (x : ascii) (self : KeyboardController.t)
    (key : option ascii) :
  (x = KeyboardController.ESC \/ key <> Some x) ->
  KeyboardController.mem x (KeyboardController.keys_pressed self) = false ->
  KeyboardController.mem x
    (KeyboardController.keys_pressed (fst (KeyboardController.update self key)))
  = false.
Proof.
  intros Hx Hout.
  destruct (update_keys self key) as [E | [E | (k & Hk & Hne & E)]];
    cbv zeta in E; rewrite E; clear E.
  - reflexivity.
  - exact Hout.
  - rewrite mem_add, Hout, orb_false_r.
    destruct (Ascii.eqb_spec x k) as [<- | _]; [| reflexivity].
    destruct Hx as [-> | Hx]; [contradiction | congruence].
Qed.

Lemma get_motor_speeds_keeps_out (x : ascii) (self : KeyboardController.t)
    (key : option ascii) :
  (x = KeyboardController.ESC \/ key <> Some x) ->
  KeyboardController.mem x (KeyboardController.keys_pressed self) = false ->
  KeyboardController.mem x
    (KeyboardController.keys_pressed
       (fst (KeyboardController.get_motor_speeds self key)))
  = false.
Proof.
  intros Hx Hout. rewrite get_motor_speeds_keys. movement_keys.
  rewrite (update_keeps_out x self key Hx Hout), !andb_false_r. reflexivity.
Qed.

Lemma get_servo_angle_keeps_out (x : ascii) (self : KeyboardController.t) :
  KeyboardController.mem x (KeyboardController.keys_pressed self) = false ->
  KeyboardController.mem x
    (KeyboardController.keys_pressed
       (fst (KeyboardController.get_servo_angle self)))
  = false.
Proof.
  intro Hout. unfold KeyboardController.get_servo_angle. cbv zeta.
  repeat match goal with
         | |- context [if ?b then _ else _] => destruct b
         end;
    cbn [fst KeyboardController.keys_pressed];
    rewrite ?mem_discard, Hout, ?andb_false_r; reflexivity.
Qed.

Lemma run_pass_input (write_ok : bool) (key : option ascii)
    (input : KeyboardController.t) (motor : MotorController.t) :
  let input' :=
    fst (KeyboardController.get_servo_angle
           (fst (KeyboardController.get_motor_speeds input key))) in
  fst (fst (RobotApp.run_pass write_ok key input motor)) = input'
  /\ snd (RobotApp.run_pass write_ok key input motor) =
       negb (KeyboardController.should_stop input').
Proof.
  unfold RobotApp.run_pass.
  destruct (KeyboardController.get_motor_speeds input key)
    as [input1 [l r]].
  cbn [fst].
  destruct (KeyboardController.get_servo_angle input1) as [input2 servo].
  split; reflexivity.
Qed.

(** X19.  The escape key never stops the keyboard loop: [update] returns
    without adding it to the set, so [should_stop] does not see it.  As
    long as Ctrl-C is not read, the loop of [RobotApp.run] is still running
    after any sequence of keys, escape included. *)
Theorem keyboard_escape_ignored (write_ok : bool) (keys : list (option ascii))
    (input : KeyboardController.t) (motor : MotorController.t) :
  KeyboardController.should_stop input = false ->
  Forall (fun key => key <> Some KeyboardController.CTRL_C) keys ->
  snd (RobotApp.run_passes write_ok keys input motor) = true
  /\ KeyboardController.should_stop
       (fst (fst (RobotApp.run_passes write_ok keys input motor))) = false.
Proof.
  revert input motor.
  induction keys as [| key rest IH]; intros input motor Hstop Hall.
  - split; [reflexivity | exact Hstop].
  - inversion Hall as [| k0 r0 Hkey Hrest]; subst.
    unfold KeyboardController.should_stop in Hstop.
    apply orb_false_iff in Hstop. destruct Hstop as [Hesc Hctl].
    destruct (run_pass_input write_ok key input motor) as [Hin Hrun].
    cbv zeta in Hin, Hrun.
    set (input' :=
           fst (KeyboardController.get_servo_angle
                  (fst (KeyboardController.get_motor_speeds input key)))) in *.
    assert (Hstop' : KeyboardController.should_stop input' = false).
    { unfold KeyboardController.should_stop, input'.
      rewrite !get_servo_angle_keeps_out; [reflexivity | |].
      - apply get_motor_speeds_keeps_out; [right; exact Hkey | exact Hctl].
      - apply get_motor_speeds_keeps_out; [left; reflexivity | exact Hesc]. }
    cbn [RobotApp.run_passes].
    destruct (RobotApp.run_pass write_ok key input motor)
      as [[input1 motor1] running] eqn:Hpass.
    cbn [fst snd] in Hin, Hrun. subst input1.
    rewrite Hstop' in Hrun. cbn [negb] in Hrun. rewrite Hrun.
    apply IH; [exact Hstop' | exact Hrest].
Qed.

Lemma keyboard_escape_ignored_witness :
  snd (RobotApp.run_passes true
         [Some KeyboardController.ESC; Some "w"%char; None;
          Some KeyboardController.ESC]
         KeyboardController.init MotorController.init) = true.
Proof.
  destruct (keyboard_escape_ignored true
              [Some KeyboardController.ESC; Some "w"%char; None;
               Some KeyboardController.ESC]
              KeyboardController.init MotorController.init) as [H _].
  - reflexivity.
  - repeat constructor; intro H; discriminate H.
  - exact H.
Defined.

(** ** JoystickController *)

Lemma clamp_255 (z : Z) : (-255 <= Z.max (-255) (Z.min 255 z) <= 255)%Z.
Proof. lia. Qed.

(** X20.  The motor speeds the joystick gives are always within -255..255;
    with the stick within the dead zone (less than 0.15 from the centre on
    each axis) they are (0, 0), and with only the x axis in the dead zone
    the two wheels get the same speed. *)
Theorem joystick_motor_speeds (axis0 axis1 : R) :
  let result := JoystickController.get_motor_speeds axis0 axis1 in
  ((-255 <= fst result <= 255)%Z /\ (-255 <= snd result <= 255)%Z)
  /\ (Rabs axis0 < 0.15 -> fst result = snd result)
  /\ (Rabs axis0 < 0.15 -> Rabs axis1 < 0.15 -> result = (0, 0)%Z).
Proof.
  intro result. unfold result, JoystickController.get_motor_speeds.
  cbv zeta. cbn [fst snd]. split; [split; apply clamp_255 |].
  unfold JoystickController.deadzone.
  assert (Hzero : int_of_float 0 = 0%Z) by (apply (int_of_float_IZR 0)).
  split.
  - intro Hx. apply ltb_true in Hx. rewrite Hx.
    rewrite Rmult_0_l, Rplus_0_r, Rminus_0_r. reflexivity.
  - intros Hx Hy. apply ltb_true in Hx. rewrite Hx.
    rewrite Rabs_Ropp. apply ltb_true in Hy. rewrite Hy.
    rewrite !Rmult_0_l, Rplus_0_r, Rminus_0_r, Hzero. reflexivity.
Qed.

Lemma joystick_motor_speeds_witness :
  JoystickController.get_motor_speeds (1 / 10) (- (1 / 10)) = (0, 0)%Z.
Proof.
  destruct (joystick_motor_speeds (1 / 10) (- (1 / 10))) as (_ & _ & H).
  apply H.
  - rewrite Rabs_pos_eq; lra.
  - rewrite Rabs_Ropp, Rabs_pos_eq; lra.
Defined.

(** X21.  For an axis value within [-1, 1], as pygame gives them, the angle
    the joystick sets for the servo is within 0..180, so [set_servo] has
    nothing to clamp; within the dead zone, or with fewer than three axes,
    the angle is left alone and [None] is returned. *)
Theorem joystick_servo_angle (servo_angle numaxes : Z) (axis2 : R) :
  (0 <= servo_angle <= 180)%Z ->
  -1 <= axis2 <= 1 ->
  let result := JoystickController.get_servo_angle servo_angle numaxes axis2 in
  (0 <= fst result <= 180)%Z
  /\ match snd result with
     | Some angle => angle = fst result /\ (3 <= numaxes)%Z /\ 0.15 < Rabs axis2
     | None => fst result = servo_angle
     end.
Proof.
  intros Hs Hax result. unfold result, JoystickController.get_servo_angle.
  destruct (Z.geb_spec numaxes 3) as [Hn | Hn]; [| cbn; split; [exact Hs | reflexivity]].
  unfold JoystickController.deadzone.
  destruct (RBool.gtb (Rabs axis2) 0.15) eqn:Hdz; cbn [fst snd].
  - apply gtb_true in Hdz. split.
    + apply int_of_float_bounds. lra.
    + split; [reflexivity |]. split; [lia | exact Hdz].
  - split; [exact Hs | reflexivity].
Qed.

Lemma joystick_servo_angle_witness :
  (0 <= fst (JoystickController.get_servo_angle 90 4 1) <= 180)%Z.
Proof.
  destruct (joystick_servo_angle 90 4 1) as [H _]; [lia | lra |].
  exact H.
Defined.

(** * The gamepad controller *)

(** X22.  [send_command] calls [cmd.encode()], and the button handlers and
    the servo code pass it [bytes]: on a connected controller the X,
    circle, triangle and PS buttons, and any move of the right stick out of
    the dead zone, send no command of their own and leave the controller
    disconnected.  Only the motor command of the PS button, a [str],
    can still get out before. *)
Theorem ps5_bytes_commands_disconnect
    (write_ok : bool) (self : PS5RobotController.t) :
  PS5RobotController.connected self = true ->
  (forall button,
      (button = 0 \/ button = 1 \/ button = 2 \/ button = 10)%Z ->
      let self' := PS5RobotController.handle_button_press write_ok self button in
      PS5RobotController.connected self' = false
      /\ (PS5RobotController.written self' = PS5RobotController.written self
          \/ (button = 10%Z /\ write_ok = true
              /\ PS5RobotController.written self' =
                   PS5RobotController.written self
                   ++ [("M,0,0" ++ newline)%string])))
  /\ (forall right_x,
         0.15 < Rabs right_x ->
         let self' := PS5RobotController.process_servo write_ok self right_x in
         PS5RobotController.connected self' = false
         /\ PS5RobotController.written self' = PS5RobotController.written self
         /\ (0 <= PS5RobotController.servo_angle self' <= 180)%Z).
Proof.
  intro Hc. split.
  - intros button Hb self'. unfold self', PS5RobotController.handle_button_press.
    destruct Hb as [-> | [-> | [-> | ->]]];
      cbn [Z.eqb Pos.eqb PS5RobotController.BUTTON_X
           PS5RobotController.BUTTON_CIRCLE PS5RobotController.BUTTON_TRIANGLE
           PS5RobotController.BUTTON_SQUARE PS5RobotController.BUTTON_L1
           PS5RobotController.BUTTON_R1 PS5RobotController.BUTTON_OPTIONS
           PS5RobotController.BUTTON_PS];
      unfold PS5RobotController.send_command,
             PS5RobotController.send_motor_command.
    + rewrite Hc. cbn. split; [reflexivity | left; reflexivity].
    + rewrite Hc. cbn. split; [reflexivity | left; reflexivity].
    + cbn. rewrite Hc. cbn. split; [reflexivity | left; reflexivity].
    + rewrite Hc. destruct write_ok; cbn.
      * split; [reflexivity |]. right. repeat split; reflexivity.
      * split; [reflexivity | left; reflexivity].
  - intros right_x Hx self'. unfold self', PS5RobotController.process_servo.
    assert (Hlt : RBool.ltb (Rabs right_x) 0.15 = false)
      by (apply ltb_false; lra).
    assert (Hgt : RBool.gtb (Rabs right_x) 0.15 = true)
      by (apply gtb_true; exact Hx).
    rewrite Hlt, Hgt. cbv zeta.
    unfold PS5RobotController.send_command.
    cbn [PS5RobotController.connected PS5RobotController.encode].
    rewrite Hc.
    cbn [PS5RobotController.disconnected PS5RobotController.connected
         PS5RobotController.written PS5RobotController.servo_angle].
    split; [reflexivity |]. split; [reflexivity | lia].
Qed.

Lemma ps5_bytes_commands_disconnect_witness :
  PS5RobotController.connected
    (PS5RobotController.handle_button_press true
       (PS5RobotController.mk true 90 true []) 0) = false
  /\ PS5RobotController.connected
       (PS5RobotController.process_servo true
          (PS5RobotController.mk true 90 true []) 1) = false.
Proof.
  destruct (ps5_bytes_commands_disconnect true
              (PS5RobotController.mk true 90 true []) eq_refl) as [Hb Hs].
  split.
  - destruct (Hb 0%Z) as [H _]; [left; reflexivity | exact H].
  - destruct (Hs 1) as [H _]; [rewrite Rabs_pos_eq; lra | exact H].
Defined.
